(** * eodal: querying a Spatio-Temporal Asset Catalog (STAC)

    A shallow embedding of [eodal/metadata/stac/client.py]: the sensor-agnostic
    [query_stac] and the two sensor-specific queries [sentinel2] and
    [sentinel1_rtc], together with the properties the specification states
    about them, and the YAML form of a mapper configuration.

    Python values are modelled by [pyval]; dictionaries are mutable objects
    that live in a store and are referred to by location, because
    [sentinel1_rtc] updates the [properties] dictionary of each scene in
    place.  Calls into the STAC client library are recorded in a trace and
    answered by the environment (the variables of section [Client]). *)

From Stdlib Require Import ZArith QArith String Ascii List Bool Lia DecimalString.
From stdpp Require Import base option list gmap strings.

Open Scope Z_scope.
Open Scope string_scope.
Open Scope list_scope.

(** ** Python values *)

Definition loc := positive.

(** [datetime.date] and [datetime.datetime]. *)
Record date := Date { year : Z; month : Z; day : Z }.

Record pydatetime := Datetime {
  dt_date : date; hour : Z; minute : Z; second : Z; microsecond : Z }.

(** A Python [float]: not-a-number, an infinity, or a finite value, which is
    a rational number. *)
Inductive pyfloat :=
| FNan
| FInf (negative : bool)
| FFin (q : Q).

(** A Python number as the code meets it: [int] or [float]. *)
Inductive pynum :=
| NInt (z : Z)
| NFloat (f : pyfloat).

#[warnings="-register-all"]
Inductive pyval :=
| VNone
| VBool (b : bool)
| VNum (n : pynum)
| VStr (s : string)
| VList (l : list pyval)
| VDate (d : date)
| VDatetime (t : pydatetime)
| VRef (l : loc).

(** A [dict] with string keys, in insertion order. *)
Definition pydict := list (string * pyval).

Fixpoint dict_get (k : string) (d : pydict) : option pyval :=
  match d with
  | [] => None
  | (k', v) :: d' => if String.eqb k k' then Some v else dict_get k d'
  end.

(** [d[k] = v]: an existing key keeps its position, a new key goes last. *)
Fixpoint dict_set (k : string) (v : pyval) (d : pydict) : pydict :=
  match d with
  | [] => [(k, v)]
  | (k', v') :: d' =>
      if String.eqb k k' then (k', v) :: d' else (k', v') :: dict_set k v d'
  end.

Definition dict_keys (d : pydict) : list string := map fst d.

(** A dictionary display [{k1: v1, ..., kn: vn}]. *)
Definition dict_literal (items : list (string * pyval)) : pydict :=
  fold_left (fun d kv => dict_set (fst kv) (snd kv) d) items [].

(** ** Numbers and their order *)

Definition num_val (n : pynum) : pyfloat :=
  match n with
  | NInt z => FFin (inject_Z z)
  | NFloat f => f
  end.

(** [x <= y] on floats; a comparison with not-a-number is false. *)
Definition float_le (x y : pyfloat) : bool :=
  match x, y with
  | FNan, _ | _, FNan => false
  | FInf true, _ => true
  | _, FInf false => true
  | FInf false, _ => false
  | _, FInf true => false
  | FFin a, FFin b => Qle_bool a b
  end.

(** Python compares an [int] and a [float] by their exact values. *)
Definition num_le (x y : pynum) : bool := float_le (num_val x) (num_val y).

Definition is_nan (n : pynum) : bool :=
  match n with
  | NFloat FNan => true
  | _ => false
  end.

(** [bool] is a subclass of [int]. *)
Definition as_number (v : pyval) : option pynum :=
  match v with
  | VNum n => Some n
  | VBool b => Some (NInt (if b then 1 else 0))
  | _ => None
  end.

(** ** Exceptions *)

Inductive exn_class :=
| ValueError
| KeyError
| TypeError
| AttributeError
| OtherError (name : string).

Record exn := Exn { exn_cls : exn_class; exn_msg : string }.

Inductive result (A : Type) :=
| Ok (a : A)
| Raise (e : exn).
Arguments Ok {A} a.
Arguments Raise {A} e.

#[global] Instance result_ret : MRet result := fun A a => Ok a.
#[global] Instance result_bind : MBind result := fun A B f r =>
  match r with
  | Ok a => f a
  | Raise e => Raise e
  end.

(** [try: body except KeyError: handler] *)
Definition try_except_KeyError {A} (body handler : result A) : result A :=
  match body with
  | Raise (Exn KeyError _) => handler
  | r => r
  end.

Definition is_ValueError {A} (r : result A) : bool :=
  match r with
  | Raise (Exn ValueError _) => true
  | _ => false
  end.

(** [v <= t] for a number [t]: any operand that is not a number raises. *)
Definition py_le (v : pyval) (t : pynum) : result bool :=
  match as_number v with
  | Some n => Ok (num_le n t)
  | None => Raise (Exn TypeError "'<=' not supported between these instances")
  end.

(** ** Dates as text *)

Definition digits (n : Z) : string := NilEmpty.string_of_uint (N.to_uint (Z.to_N n)).

Fixpoint zeros (n : nat) : string :=
  match n with
  | O => ""
  | S n' => String "0" (zeros n')
  end.

(** Decimal rendering, zero-padded to [width] characters. *)
Definition zero_pad (width : nat) (n : Z) : string :=
  let s := digits n in
  zeros (width - String.length s) +:+ s.

(** [d.strftime("%Y-%m-%d")]: the year on four digits, month and day on two. *)
Definition strftime_Ymd (d : date) : string :=
  zero_pad 4 (year d) +:+ "-" +:+ zero_pad 2 (month d) +:+ "-" +:+ zero_pad 2 (day d).

(** A date whose year has four digits. *)
Definition date_in_range (d : date) : Prop :=
  1000 <= year d <= 9999 /\ 1 <= month d <= 12 /\ 1 <= day d <= 31.

(** [s.split("T")[0]]: the text before the first ['T'], all of [s] when
    there is none. *)
Fixpoint split_T_head (s : string) : string :=
  match s with
  | EmptyString => EmptyString
  | String c s' => if Ascii.eqb c "T" then EmptyString else String c (split_T_head s')
  end.

(** ** The store, the trace and the monad of the client *)

(** [shapely.geometry.Polygon], by the coordinates of its exterior ring. *)
Record Polygon := { exterior : list (Q * Q) }.

(** The keyword arguments of [Client.search]. *)
Record SearchParams := {
  collections : string;
  intersects : Polygon;
  datetime : string;
  max_items : Z;
  limit : Z }.

(** Calls into the STAC client library. *)
Inductive event :=
| EvOpen (url : string)
| EvSearch (p : SearchParams)
| EvGetAllItems (p : SearchParams).

Record state := State { trace : list event; store : gmap loc pydict }.

Definition M (A : Type) : Type := state -> result A * state.

#[global] Instance M_ret : MRet M := fun A a st => (Ok a, st).
#[global] Instance M_bind : MBind M := fun A B f m st =>
  match m st with
  | (Ok a, st') => f a st'
  | (Raise e, st') => (Raise e, st')
  end.

Definition raise {A} (e : exn) : M A := fun st => (Raise e, st).

Definition lift {A} (r : result A) : M A := fun st => (r, st).

Definition emit (ev : event) : M unit :=
  fun st => (Ok tt, State (trace st ++ [ev]) (store st)).

Definition get_store : M (gmap loc pydict) := fun st => (Ok (store st), st).

Definition put_store (h : gmap loc pydict) : M unit :=
  fun st => (Ok tt, State (trace st) h).

(** ** Subscripts and iteration *)

(** [x[k]] for a string key [k]. *)
Definition getitem (h : gmap loc pydict) (x : pyval) (k : string) : result pyval :=
  match x with
  | VRef l =>
      match h !! l with
      | Some d =>
          match dict_get k d with
          | Some v => Ok v
          | None => Raise (Exn KeyError k)
          end
      | None => Raise (Exn TypeError "object is not subscriptable")
      end
  | _ => Raise (Exn TypeError "object is not subscriptable by a string")
  end.

(** [x[k] = v] for a string key [k]. *)
Definition setitem (x : pyval) (k : string) (v : pyval) : M unit :=
  match x with
  | VRef l =>
      h ← get_store;
      match h !! l with
      | Some d => put_store (<[l := dict_set k v d]> h)
      | None => raise (Exn TypeError "object does not support item assignment")
      end
  | _ => raise (Exn TypeError "object does not support item assignment")
  end.

(** The elements a [for] loop over [x] visits. *)
Definition py_iter (h : gmap loc pydict) (x : pyval) : result (list pyval) :=
  match x with
  | VList l => Ok l
  | VStr s => Ok (map (fun c => VStr (String c EmptyString)) (list_ascii_of_string s))
  | VRef l =>
      match h !! l with
      | Some d => Ok (map VStr (dict_keys d))
      | None => Raise (Exn TypeError "object is not iterable")
      end
  | _ => Raise (Exn TypeError "object is not iterable")
  end.

(** ** Settings

    [eodal.config] is not among the sources; the client reads its settings
    object [Settings], which is a parameter of the client below.  The types
    here list what the client reads of it. *)

(** Modelled from the spec: the provider classes of [STAC_Providers] in
    [eodal.config], which is not among the sources; [Settings.STAC_BACKEND]
    is one of them and the client compares them by identity. *)
Inductive STAC_Providers :=
| AWS
| MSPC.

#[global] Instance STAC_Providers_eq_dec : EqDecision STAC_Providers.
Proof. solve_decision. Defined.

(** The [tile_id] entry of a provider is one property name or a list. *)
Inductive tile_id_names :=
| TileName (name : string)
| TileNames (names : list string).

(** Modelled from the spec: [STAC_BACKEND.Sentinel2] of [eodal.config], which
    is not among the sources; the provider's names of the scene properties
    (the per-sensor property-name mapping). *)
Record Sentinel2_names := {
  product_uri : string;
  scene_id : string;
  platform : string;
  tile_id : tile_id_names;
  sensing_time : string;
  sensing_time_fmt : string;
  cloud_cover : string;
  epsg : string;
  sun_azimuth_angle : string;
  sun_zenith_angle : string }.

(** Modelled from the spec: a STAC backend of [eodal.config], which is not
    among the sources; its URL, its collection names and its mapping. *)
Record backend := {
  provider : STAC_Providers;
  URL : string;
  S2L1C : string;
  S2L2A : string;
  Sentinel2 : Sentinel2_names }.

(** Modelled from the spec: the settings object of [eodal.config], which is
    not among the sources; the use-STAC flag, the backend, the API key and
    the item limits. *)
Record settings := {
  USE_STAC : bool;
  STAC_BACKEND : backend;
  PC_SDK_SUBSCRIPTION_KEY : string;
  MAX_ITEMS : Z;
  LIMIT_ITEMS : Z }.

(** Modelled from the spec: the enumeration [ProcessingLevels] of
    [eodal.utils.sentinel2], which is not among the sources; [sentinel2]
    reads the name of the level to pick the collection [S2L1C] or [S2L2A]. *)
Inductive ProcessingLevels :=
| L1C
| L2A.

(** The keyword arguments the [prepare_bbox] wrapper (of [eodal.utils], not
    among the sources) hands to the body of a sensor-specific query; they are
    passed on to [query_stac], which takes these four. *)
Record kwargs := {
  date_start : date;
  date_end : date;
  bounding_box : Polygon;
  collection : option string }.

(** [kwargs.update({"collection": c})] *)
Definition kwargs_update_collection (c : string) (kw : kwargs) : kwargs :=
  {| date_start := date_start kw; date_end := date_end kw;
     bounding_box := bounding_box kw; collection := Some c |}.

(** What [search.get_all_items()] answers: the item collection, by its
    dictionary form [ic_dict] and the objects [ic_store] that form refers to. *)
Record ItemCollection := {
  ic_store : gmap loc pydict;
  ic_dict : pydict }.

(** A [pandas.DataFrame] built from a list of records, by its rows: one per
    record, in list order. *)
Definition DataFrame := list pydict.

(** [df.empty]: the frame has no row or no column; built from records, it
    has no column when none of its records has a key. *)
Definition DataFrame_empty (df : DataFrame) : bool :=
  forallb (fun row => match row with [] => true | _ :: _ => false end) df.

(** [d[k]] on a dictionary held as a local value. *)
Definition dict_getitem (d : pydict) (k : string) : result pyval :=
  match dict_get k d with
  | Some v => Ok v
  | None => Raise (Exn KeyError k)
  end.

(** The dictionary an object reference denotes. *)
Definition deref (h : gmap loc pydict) (x : pyval) : result pydict :=
  match x with
  | VRef l =>
      match h !! l with
      | Some d => Ok d
      | None => Raise (Exn TypeError "not a dictionary")
      end
  | _ => Raise (Exn TypeError "not a dictionary")
  end.

(** A list comprehension [[f(x) for x in l]]: stops at the first exception. *)
Fixpoint comprehension {A B} (f : A -> result B) (l : list A) : result (list B) :=
  match l with
  | [] => Ok []
  | x :: l' => y ← f x; ys ← comprehension f l'; mret (y :: ys)
  end.

(** [v.split("T")[0]]; only a [str] has [split]. *)
Definition split_T (v : pyval) : result string :=
  match v with
  | VStr s => Ok (split_T_head s)
  | _ => Raise (Exn AttributeError "object has no attribute 'split'")
  end.

(** ** The client *)

Section Client.

(** Python's [str] on the values [py_str] below leaves open. *)
Variable builtin_str : gmap loc pydict -> pyval -> string.
(** [datetime.strptime(text, format)] *)
Variable strptime : string -> string -> result pydatetime.
(** The STAC client library: [Client.open(url)], [cat.search(...)] and
    [search.get_all_items()]; [Some e] and [Raise e] are failures. *)
Variable Client_open : string -> option exn.
Variable Client_search : SearchParams -> option exn.
Variable get_all_items : SearchParams -> result ItemCollection.
(** [Settings = get_settings()] *)
Variable Settings : settings.

(** [str(v)] *)
Definition py_str (h : gmap loc pydict) (v : pyval) : string :=
  match v with
  | VStr s => s
  | VNone => "None"
  | VBool b => if b then "True" else "False"
  | VNum (NInt z) => NilEmpty.string_of_int (Z.to_int z)
  | _ => builtin_str h v
  end.

(** [datetime.strptime(v, fmt)]; the text must be a [str]. *)
Definition py_strptime (v : pyval) (fmt : string) : result pydatetime :=
  match v with
  | VStr s => strptime s fmt
  | _ => Raise (Exn TypeError "strptime() argument 1 must be str")
  end.

Definition open_catalog (url : string) : M unit :=
  _ ← emit (EvOpen url);
  match Client_open url with
  | Some e => raise e
  | None => mret tt
  end.

Definition cat_search (p : SearchParams) : M SearchParams :=
  _ ← emit (EvSearch p);
  match Client_search p with
  | Some e => raise e
  | None => mret p
  end.

Definition search_get_all_items (search : SearchParams) : M ItemCollection :=
  _ ← emit (EvGetAllItems search);
  lift (get_all_items search).

(** [items.to_dict()]: the objects of the dictionary form enter the store. *)
Definition to_dict (items : ItemCollection) : M pydict :=
  h ← get_store;
  _ ← put_store (ic_store items ∪ h);
  mret (ic_dict items).

Definition query_stac (date_start date_end : date) (collection : string)
    (bounding_box : Polygon) : M pyval :=
  (* open connection to STAC server *)
  _ ← open_catalog (URL (STAC_BACKEND Settings));
  (* transform dates into the required format (%Y-%m-%d) *)
  let datestr := strftime_Ymd date_start +:+ "/" +:+ strftime_Ymd date_end in
  (* search datasets on catalog *)
  search ← cat_search {|
    collections := collection;
    intersects := bounding_box;
    datetime := datestr;
    max_items := MAX_ITEMS Settings;
    limit := LIMIT_ITEMS Settings |};
  items ← search_get_all_items search;
  item_json ← to_dict items;
  scenes ← lift (dict_getitem item_json "features");
  mret scenes.

(** [query_stac] called with the keyword arguments [kw] unpacked. *)
Definition call_query_stac (kw : kwargs) : M pyval :=
  match collection kw with
  | Some c => query_stac (date_start kw) (date_end kw) c (bounding_box kw)
  | None =>
      raise (Exn TypeError "query_stac() missing 1 required positional argument: 'collection'")
  end.

(** The record [sentinel2] builds for one scene (the body of its loop up
    to the cloud-cover test). *)
Definition scene_meta_dict (h : gmap loc pydict) (scene : pyval) : result pydict :=
  let s2 := Sentinel2 (STAC_BACKEND Settings) in
  props ← getitem h scene "properties";
  tile ← match tile_id s2 with
         | TileNames names =>
             strs ← comprehension
                      (fun x => v ← getitem h props x; mret (py_str h v)) names;
             mret (VStr (String.concat "" strs))
         | TileName name => getitem h props name
         end;
  uri ← try_except_KeyError
          (getitem h scene (product_uri s2)) (getitem h props (product_uri s2));
  sid ← try_except_KeyError
          (getitem h props (scene_id s2)) (getitem h scene (scene_id s2));
  spacecraft ← getitem h props (platform s2);
  t1 ← getitem h props (sensing_time s2);
  day_text ← split_T t1;
  day_time ← strptime day_text "%Y-%m-%d";
  cloud ← getitem h props (cloud_cover s2);
  code ← getitem h props (epsg s2);
  t2 ← getitem h props (sensing_time s2);
  time ← py_strptime t2 (sensing_time_fmt s2);
  azimuth ← getitem h props (sun_azimuth_angle s2);
  zenith ← getitem h props (sun_zenith_angle s2);
  let meta_dict := dict_literal [
    ("product_uri", uri);
    ("scene_id", sid);
    ("spacecraft_name", spacecraft);
    ("tile_id", tile);
    ("sensing_date", VDate (dt_date day_time));
    ("cloudy_pixel_percentage", cloud);
    ("epsg", code);
    ("sensing_time", VDatetime time);
    ("sun_azimuth_angle", azimuth);
    ("sun_zenith_angle", zenith) ] in
  (* get links to actual Sentinel-2 bands *)
  assets ← getitem h scene "assets";
  mret (dict_set "assets" assets meta_dict).

(** The loop of [sentinel2] over the scenes found. *)
Fixpoint sentinel2_loop (h : gmap loc pydict) (cloud_cover_threshold : pynum)
    (scenes : list pyval) (metadata_list : list pydict) : result (list pydict) :=
  match scenes with
  | [] => Ok metadata_list
  | scene :: rest =>
      meta_dict ← scene_meta_dict h scene;
      cloud ← dict_getitem meta_dict "cloudy_pixel_percentage";
      keep ← py_le cloud cloud_cover_threshold;
      sentinel2_loop h cloud_cover_threshold rest
        (if keep : bool then metadata_list ++ [meta_dict] else metadata_list)
  end.

Definition sentinel2 (cloud_cover_threshold : pynum)
    (processing_level : ProcessingLevels) (kw : kwargs) : M DataFrame :=
  (* check for processing level of the data and set the collection accordingly *)
  let processing_level_stac :=
    match processing_level with
    | L1C => S2L1C (STAC_BACKEND Settings)
    | L2A => S2L2A (STAC_BACKEND Settings)
    end in
  let kw := kwargs_update_collection processing_level_stac kw in
  (* query STAC catalog *)
  scenes ← call_query_stac kw;
  h ← get_store;
  scene_list ← lift (py_iter h scenes);
  metadata_list ← lift (sentinel2_loop h cloud_cover_threshold scene_list []);
  mret (metadata_list : DataFrame).

(** The loop of [sentinel1_rtc]: it writes into the [properties]
    dictionary of each scene. *)
Fixpoint sentinel1_rtc_loop (scenes : list pyval) (metadata_list : list pyval)
    : M (list pyval) :=
  match scenes with
  | [] => mret metadata_list
  | scene :: rest =>
      h ← get_store;
      metadata_dict ← lift (getitem h scene "properties");
      assets ← lift (getitem h scene "assets");
      _ ← setitem metadata_dict "assets" assets;
      sentinel1_rtc_loop rest (metadata_list ++ [metadata_dict])
  end.

(** [pd.DataFrame(records)] for a list of dictionary objects. *)
Definition pd_DataFrame (records : list pyval) : M DataFrame :=
  h ← get_store;
  lift (comprehension (deref h) records).

Definition sentinel1_rtc (kw : kwargs) : M DataFrame :=
  (* check STAC provider and status *)
  if negb (USE_STAC Settings) then
    raise (Exn ValueError "This method requires STAC")
  else if negb (bool_decide (provider (STAC_BACKEND Settings) = MSPC)) then
    raise (Exn ValueError "This method requires Microsoft Planetary Computer")
  else if String.eqb (PC_SDK_SUBSCRIPTION_KEY Settings) "" then
    raise (Exn ValueError "This method requires a valid Planetary Computer API key")
  else
    (* set collection to sentinel1-rtc *)
    let kw := kwargs_update_collection "sentinel-1-rtc" kw in
    (* query the catalog *)
    scenes ← call_query_stac kw;
    h ← get_store;
    scene_list ← lift (py_iter h scenes);
    metadata_list ← sentinel1_rtc_loop scene_list [];
    pd_DataFrame metadata_list.

(** The script at the end of the module (run when the module is the main
    program): both sensor queries for May 2022, on the polygon the
    [prepare_bbox] wrapper makes of the vector file, then the assertion on
    the Sentinel-2 frame. *)
Definition main (bounding_box : Polygon) : M unit :=
  (* define time period *)
  let date_start := Date 2022 5 1 in
  let date_end := Date 2022 5 31 in
  (* select processing level *)
  let processing_level := L2A in
  (* set scene cloud cover threshold [%] *)
  let cloud_cover_threshold := NInt 80 in
  let kw := {| date_start := date_start; date_end := date_end;
               bounding_box := bounding_box; collection := None |} in
  (* Sentinel-1 *)
  res_s1 ← sentinel1_rtc kw;
  (* run stack query and make sure some items are returned *)
  res_s2 ← sentinel2 cloud_cover_threshold processing_level kw;
  if DataFrame_empty res_s2 then mret tt
  else raise (Exn (OtherError "AssertionError") "no results found").

End Client.

(** ** Reading a trace *)

Definition opened (tr : list event) : list string :=
  omap (fun ev => match ev with EvOpen url => Some url | _ => None end) tr.

Definition searches (tr : list event) : list SearchParams :=
  omap (fun ev => match ev with EvSearch p => Some p | _ => None end) tr.

Definition fetches (tr : list event) : list SearchParams :=
  omap (fun ev => match ev with EvGetAllItems p => Some p | _ => None end) tr.

(** The search [query_stac] sends for its four arguments. *)
Definition stac_search (S : settings) (date_start date_end : date)
    (collection : string) (bounding_box : Polygon) : SearchParams := {|
  collections := collection;
  intersects := bounding_box;
  datetime := strftime_Ymd date_start +:+ "/" +:+ strftime_Ymd date_end;
  max_items := MAX_ITEMS S;
  limit := LIMIT_ITEMS S |}.

(** The first failure of the STAC client library during one query, if any. *)
Definition library_failure (Client_open : string -> option exn)
    (Client_search : SearchParams -> option exn)
    (get_all_items : SearchParams -> result ItemCollection)
    (url : string) (p : SearchParams) : option exn :=
  match Client_open url with
  | Some e => Some e
  | None =>
      match Client_search p with
      | Some e => Some e
      | None =>
          match get_all_items p with
          | Raise e => Some e
          | Ok _ => None
          end
      end
  end.

(** The library answers a query with an item collection. *)
Definition library_answers (Client_open : string -> option exn)
    (Client_search : SearchParams -> option exn)
    (get_all_items : SearchParams -> result ItemCollection)
    (url : string) (p : SearchParams) (items : ItemCollection) : Prop :=
  Client_open url = None /\ Client_search p = None /\ get_all_items p = Ok items.

(** The collection [sentinel2] searches for a processing level. *)
Definition level_collection (S : settings) (processing_level : ProcessingLevels) : string :=
  match processing_level with
  | L1C => S2L1C (STAC_BACKEND S)
  | L2A => S2L2A (STAC_BACKEND S)
  end.

(** Required configuration of [sentinel1_rtc] is missing. *)
Definition config_missing (S : settings) : Prop :=
  USE_STAC S = false \/
  provider (STAC_BACKEND S) <> MSPC \/
  PC_SDK_SUBSCRIPTION_KEY S = "".

(** A computation that raises no [ValueError], whatever the state. *)
Definition no_ValueError {A} (m : M A) : Prop :=
  forall st, is_ValueError (m st).1 = false.

(** ** Mapper configurations and their YAML form

    [eodal/mapper] (the classes [Feature], [Filter] and [MapperConfigs]) is
    not among the sources at hand; its test [test_mapper_configs] is.  The
    configuration and its serialization are set down here as the
    specification describes them. *)

Module Mapper.

(** A plain YAML scalar as the configuration uses them: text or an integer. *)
Inductive scalar :=
| SStr (s : string)
| SInt (z : Z).

(** A YAML document, as a tree of nodes. *)
#[warnings="-register-all"]
Inductive yaml :=
| YScalar (s : scalar)
| YNum (q : Q)
| YTime (t : pydatetime)
| YSeq (items : list yaml)
| YMap (entries : list (string * yaml)).

(** A geometry ([Point], [Polygon], ...) by its kind and its coordinates. *)
Record Geometry := { geom_type : string; coordinates : list (Q * Q) }.

(** The area of interest: [Feature(name, geometry, epsg, attributes)]. *)
Record Feature := {
  name : string;
  geometry : Geometry;
  epsg : Z;
  attributes : list (string * scalar) }.

(** A metadata filter: [Filter(entity, operator, value)]. *)
Record Filter := { entity : string; operator : string; value : scalar }.

Definition scalar_text (v : scalar) : string :=
  match v with
  | SStr s => s
  | SInt z => NilEmpty.string_of_int (Z.to_int z)
  end.

(** The filter as an expression, such as [cloudy_pixel_percentage < 30]. *)
Definition expression (f : Filter) : string :=
  entity f +:+ " " +:+ operator f +:+ " " +:+ scalar_text (value f).

Record MapperConfigs := {
  collection : string;
  feature : Feature;
  time_start : pydatetime;
  time_end : pydatetime;
  metadata_filters : list Filter }.

Fixpoint entry (k : string) (m : list (string * yaml)) : option yaml :=
  match m with
  | [] => None
  | (k', v) :: m' => if String.eqb k k' then Some v else entry k m'
  end.

Definition as_map (y : yaml) : option (list (string * yaml)) :=
  match y with YMap m => Some m | _ => None end.
Definition as_seq (y : yaml) : option (list yaml) :=
  match y with YSeq l => Some l | _ => None end.
Definition as_scalar (y : yaml) : option scalar :=
  match y with YScalar v => Some v | _ => None end.
Definition as_text (y : yaml) : option string :=
  match y with YScalar (SStr s) => Some s | _ => None end.
Definition as_integer (y : yaml) : option Z :=
  match y with YScalar (SInt z) => Some z | _ => None end.
Definition as_num (y : yaml) : option Q :=
  match y with YNum q => Some q | _ => None end.
Definition as_time (y : yaml) : option pydatetime :=
  match y with YTime t => Some t | _ => None end.

Definition dump_coordinate (c : Q * Q) : yaml := YSeq [YNum c.1; YNum c.2].

Definition load_coordinate (y : yaml) : option (Q * Q) :=
  match y with
  | YSeq [a; b] => x ← as_num a; y ← as_num b; Some (x, y)
  | _ => None
  end.

Definition dump_geometry (g : Geometry) : yaml :=
  YMap [ ("type", YScalar (SStr (geom_type g)));
         ("coordinates", YSeq (dump_coordinate <$> coordinates g)) ].

Definition load_geometry (y : yaml) : option Geometry :=
  m ← as_map y;
  t ← entry "type" m; t ← as_text t;
  cs ← entry "coordinates" m; cs ← as_seq cs; cs ← mapM load_coordinate cs;
  Some {| geom_type := t; coordinates := cs |}.

Definition dump_attribute (a : string * scalar) : yaml :=
  YSeq [YScalar (SStr a.1); YScalar a.2].

Definition load_attribute (y : yaml) : option (string * scalar) :=
  match y with
  | YSeq [k; v] => k ← as_text k; v ← as_scalar v; Some (k, v)
  | _ => None
  end.

Definition dump_feature (f : Feature) : yaml :=
  YMap [ ("name", YScalar (SStr (name f)));
         ("geometry", dump_geometry (geometry f));
         ("epsg", YScalar (SInt (epsg f)));
         ("attributes", YSeq (dump_attribute <$> attributes f)) ].

Definition load_feature (y : yaml) : option Feature :=
  m ← as_map y;
  n ← entry "name" m; n ← as_text n;
  g ← entry "geometry" m; g ← load_geometry g;
  e ← entry "epsg" m; e ← as_integer e;
  a ← entry "attributes" m; a ← as_seq a; a ← mapM load_attribute a;
  Some {| name := n; geometry := g; epsg := e; attributes := a |}.

(** A filter is written as its triple (entity, operator, value). *)
Definition dump_filter (f : Filter) : yaml :=
  YSeq [YScalar (SStr (entity f)); YScalar (SStr (operator f)); YScalar (value f)].

Definition load_filter (y : yaml) : option Filter :=
  match y with
  | YSeq [e; o; v] =>
      e ← as_text e; o ← as_text o; v ← as_scalar v;
      Some {| entity := e; operator := o; value := v |}
  | _ => None
  end.

(** Modelled from the spec: the document [MapperConfigs.to_yaml] writes,
    which is not among the sources; it holds the collection name, the named
    area of interest with geometry, attributes and EPSG code, the time range
    and the list of filter triples. *)
Definition to_dict (c : MapperConfigs) : yaml :=
  YMap [ ("collection", YScalar (SStr (collection c)));
         ("feature", dump_feature (feature c));
         ("time_start", YTime (time_start c));
         ("time_end", YTime (time_end c));
         ("metadata_filters", YSeq (dump_filter <$> metadata_filters c)) ].

(** Modelled from the spec: the reading of such a document by
    [MapperConfigs.from_yaml], which is not among the sources. *)
Definition from_dict (y : yaml) : option MapperConfigs :=
  m ← as_map y;
  c ← entry "collection" m; c ← as_text c;
  f ← entry "feature" m; f ← load_feature f;
  t0 ← entry "time_start" m; t0 ← as_time t0;
  t1 ← entry "time_end" m; t1 ← as_time t1;
  fs ← entry "metadata_filters" m; fs ← as_seq fs; fs ← mapM load_filter fs;
  Some {| collection := c; feature := f; time_start := t0; time_end := t1;
          metadata_filters := fs |}.

(** The files on disk, by path. *)
Definition files := gmap string yaml.

(** Modelled from the spec: [MapperConfigs.to_yaml(fpath)], which is not
    among the sources; it writes the YAML form of the configuration to the
    file [fpath]. *)
Definition to_yaml (c : MapperConfigs) (fpath : string) (fs : files) : files :=
  <[fpath := to_dict c]> fs.

(** Modelled from the spec: [MapperConfigs.from_yaml(fpath)], which is not
    among the sources; it reads the configuration back from the file
    [fpath], if there is such a file and it has the expected form. *)
Definition from_yaml (fpath : string) (fs : files) : option MapperConfigs :=
  y ← fs !! fpath; from_dict y.

(** The configuration of [test_mapper_configs]. *)
Definition test_configs : MapperConfigs := {|
  collection := "sentinel2-msi";
  feature := {|
    name := "Test Point";
    geometry := {| geom_type := "Point"; coordinates := [(49 # 1, 11 # 1)%Q] |};
    epsg := 4326;
    attributes := [("this", SStr "is a test"); ("a", SInt 123)] |};
  time_start := Datetime (Date 2022 12 1) 0 0 0 0;
  time_end := Datetime (Date 2023 1 11) 9 30 15 250000;
  metadata_filters := [
    {| entity := "cloudy_pixel_percentage"; operator := "<"; value := SInt 30 |};
    {| entity := "snow_ice_percentage"; operator := "<"; value := SInt 10 |} ] |}.

End Mapper.

(** ** Scenes as the claims speak of them *)

(** The cloudy-pixel percentage of a scene: the property the provider names
    [cloud_cover]. *)
Definition scene_cloud_cover (S : settings) (h : gmap loc pydict) (scene : pyval)
    : result pyval :=
  props ← getitem h scene "properties";
  getitem h props (cloud_cover (Sentinel2 (STAC_BACKEND S))).

(** A scene as [sentinel1_rtc] reads it: the object of the scene, the object
    of its properties with its entries, and its assets. *)
Record scene_view := {
  sv_scene : loc;
  sv_properties : loc;
  sv_props : pydict;
  sv_assets : pyval }.

Definition view_scene (h : gmap loc pydict) (scene : pyval) : option scene_view :=
  match scene with
  | VRef s =>
      sd ← h !! s;
      match dict_get "properties" sd with
      | Some (VRef p) =>
          props ← h !! p;
          assets ← dict_get "assets" sd;
          Some {| sv_scene := s; sv_properties := p; sv_props := props;
                  sv_assets := assets |}
      | _ => None
      end
  | _ => None
  end.

(** No two scenes share their properties object, and no scene object is the
    properties object of a scene: what decoding a JSON reply yields. *)
Definition separate (views : list scene_view) : Prop :=
  NoDup (sv_properties <$> views) /\
  Forall (fun v => sv_scene v ∉ (sv_properties <$> views)) views.

(** The row [sentinel1_rtc] makes of a scene. *)
Definition view_row (v : scene_view) : pydict :=
  dict_set "assets" (sv_assets v) (sv_props v).

(** The keys of a record of [sentinel2]. *)
Definition sentinel2_columns : list string := [
  "product_uri"; "scene_id"; "spacecraft_name"; "tile_id"; "sensing_date";
  "cloudy_pixel_percentage"; "epsg"; "sensing_time"; "sun_azimuth_angle";
  "sun_zenith_angle"; "assets" ].

(** ** A small catalog to run the client on

    Settings in the style of the two providers, three scenes of one tile and
    a library that answers every call. *)

Module Example.

Definition names_MSPC : Sentinel2_names := {|
  product_uri := "id";
  scene_id := "s2:granule_id";
  platform := "platform";
  tile_id := TileName "s2:mgrs_tile";
  sensing_time := "datetime";
  sensing_time_fmt := "%Y-%m-%dT%H:%M:%S.%fZ";
  cloud_cover := "eo:cloud_cover";
  epsg := "proj:epsg";
  sun_azimuth_angle := "s2:mean_solar_azimuth";
  sun_zenith_angle := "s2:mean_solar_zenith" |}.

Definition names_AWS : Sentinel2_names := {|
  product_uri := "sentinel:product_id";
  scene_id := "id";
  platform := "platform";
  tile_id :=
    TileNames ["sentinel:utm_zone"; "sentinel:latitude_band"; "sentinel:grid_square"];
  sensing_time := "datetime";
  sensing_time_fmt := "%Y-%m-%dT%H:%M:%SZ";
  cloud_cover := "eo:cloud_cover";
  epsg := "proj:epsg";
  sun_azimuth_angle := "view:sun_azimuth";
  sun_zenith_angle := "view:sun_elevation" |}.

Definition backend_MSPC : backend := {|
  provider := MSPC;
  URL := "https://planetarycomputer.microsoft.com/api/stac/v1";
  S2L1C := "sentinel-2-l1c";
  S2L2A := "sentinel-2-l2a";
  Sentinel2 := names_MSPC |}.

Definition backend_AWS : backend := {|
  provider := AWS;
  URL := "https://earth-search.aws.element84.com/v0";
  S2L1C := "sentinel-s2-l1c";
  S2L2A := "sentinel-s2-l2a";
  Sentinel2 := names_AWS |}.

Definition settings_MSPC : settings := {|
  USE_STAC := true;
  STAC_BACKEND := backend_MSPC;
  PC_SDK_SUBSCRIPTION_KEY := "0123456789abcdef";
  MAX_ITEMS := 500;
  LIMIT_ITEMS := 5 |}.

(** Another provider, which needs no key. *)
Definition settings_AWS : settings := {|
  USE_STAC := true;
  STAC_BACKEND := backend_AWS;
  PC_SDK_SUBSCRIPTION_KEY := "";
  MAX_ITEMS := 500;
  LIMIT_ITEMS := 5 |}.

(** The provider and its names are in place, but STAC is switched off and
    there is no key. *)
Definition settings_off : settings := {|
  USE_STAC := false;
  STAC_BACKEND := backend_MSPC;
  PC_SDK_SUBSCRIPTION_KEY := "";
  MAX_ITEMS := 500;
  LIMIT_ITEMS := 5 |}.

Definition digit_of (c : ascii) : option Z :=
  let n := Z.of_nat (nat_of_ascii c) in
  if Z.leb 48 n && Z.leb n 57 then Some (n - 48) else None.

(** Reads [n] decimal digits from the front of [s]. *)
Fixpoint read_digits (n : nat) (acc : Z) (s : string) : option (Z * string) :=
  match n, s with
  | O, _ => Some (acc, s)
  | S n', String c s' =>
      match digit_of c with
      | Some d => read_digits n' (10 * acc + d) s'
      | None => None
      end
  | S _, EmptyString => None
  end.

Definition expect (c : ascii) (s : string) : option string :=
  match s with
  | String c' s' => if Ascii.eqb c c' then Some s' else None
  | EmptyString => None
  end.

Definition read_date (s : string) : option (date * string) :=
  '(y, s) ← read_digits 4 0 s;
  s ← expect "-" s;
  '(m, s) ← read_digits 2 0 s;
  s ← expect "-" s;
  '(d, s) ← read_digits 2 0 s;
  Some (Date y m d, s).

Definition read_time (s : string) : option (Z * Z * Z) :=
  s ← expect "T" s;
  '(h, s) ← read_digits 2 0 s;
  s ← expect ":" s;
  '(mi, s) ← read_digits 2 0 s;
  s ← expect ":" s;
  '(sec, s) ← read_digits 2 0 s;
  Some (h, mi, sec).

(** A parser for the two kinds of format the client uses: the plain date
    and a date followed by a time of day. *)
Definition strptime (text fmt : string) : result pydatetime :=
  match read_date text with
  | Some (d, rest) =>
      if String.eqb fmt "%Y-%m-%d" then
        if String.eqb rest "" then Ok (Datetime d 0 0 0 0)
        else Raise (Exn ValueError "unconverted data remains")
      else
        match read_time rest with
        | Some (h, mi, sec) => Ok (Datetime d h mi sec 0)
        | None => Raise (Exn ValueError "time data does not match format")
        end
  | None => Raise (Exn ValueError "time data does not match format")
  end.

Definition builtin_str (h : gmap loc pydict) (v : pyval) : string := "<object>".

Definition int (z : Z) : pyval := VNum (NInt z).
Definition float (q : Q) : pyval := VNum (NFloat (FFin q)).

Definition properties (granule : string) (time : string) (cloud : pyval) : pydict := [
  ("datetime", VStr time);
  ("platform", VStr "Sentinel-2A");
  ("s2:granule_id", VStr granule);
  ("s2:mgrs_tile", VStr "32TMT");
  ("eo:cloud_cover", cloud);
  ("proj:epsg", int 32632);
  ("s2:mean_solar_azimuth", float (1527 # 10));
  ("s2:mean_solar_zenith", float (279 # 10)) ].

Definition scene (id : string) (props assets : loc) : pydict := [
  ("type", VStr "Feature");
  ("id", VStr id);
  ("properties", VRef props);
  ("assets", VRef assets) ].

Definition asset (href : string) : pydict := [("B04", VStr href)].

(** Three scenes; their cloud cover is 12.5, 80 and 95 percent. *)
Definition objects : gmap loc pydict :=
  list_to_map [
    (1%positive, scene "S2A_20220503" 2%positive 3%positive);
    (2%positive, properties "G1" "2022-05-03T10:26:01.024000Z" (float (25 # 2)));
    (3%positive, asset "https://example.org/1/B04.tif");
    (4%positive, scene "S2A_20220513" 5%positive 6%positive);
    (5%positive, properties "G2" "2022-05-13T10:26:01.024000Z" (int 80));
    (6%positive, asset "https://example.org/2/B04.tif");
    (7%positive, scene "S2A_20220523" 8%positive 9%positive);
    (8%positive, properties "G3" "2022-05-23T10:26:01.024000Z" (int 95));
    (9%positive, asset "https://example.org/3/B04.tif") ].

Definition features : pyval := VList [VRef 1%positive; VRef 4%positive; VRef 7%positive].

Definition items : ItemCollection := {|
  ic_store := objects;
  ic_dict := [("type", VStr "FeatureCollection"); ("features", features)] |}.

(** One scene as the other provider describes it. *)
Definition properties_AWS : pydict := [
  ("datetime", VStr "2022-05-03T10:26:01Z");
  ("platform", VStr "sentinel-2a");
  ("sentinel:product_id", VStr "S2A_MSIL2A_20220503");
  ("sentinel:utm_zone", int 32);
  ("sentinel:latitude_band", VStr "T");
  ("sentinel:grid_square", VStr "MT");
  ("eo:cloud_cover", float (1221 # 100));
  ("proj:epsg", int 32632);
  ("view:sun_azimuth", float (1527 # 10));
  ("view:sun_elevation", float (621 # 10)) ].

Definition objects_AWS : gmap loc pydict :=
  list_to_map [
    (1%positive, scene "S2A_32TMT_20220503_0_L2A" 2%positive 3%positive);
    (2%positive, properties_AWS);
    (3%positive, asset "https://example.org/aws/B04.tif") ].

Definition items_AWS : ItemCollection := {|
  ic_store := objects_AWS;
  ic_dict := [("type", VStr "FeatureCollection"); ("features", VList [VRef 1%positive])] |}.

Definition get_all_items_AWS (p : SearchParams) : result ItemCollection := Ok items_AWS.

Definition Client_open (url : string) : option exn := None.
Definition Client_search (p : SearchParams) : option exn := None.
Definition get_all_items (p : SearchParams) : result ItemCollection := Ok items.

(** A library whose server cannot be reached. *)
Definition timeout : exn := Exn (OtherError "APIError") "timed out".
Definition get_all_items_down (p : SearchParams) : result ItemCollection :=
  Raise timeout.

(** A catalog whose second scene has neither properties nor assets. *)
Definition objects_broken : gmap loc pydict :=
  list_to_map [
    (1%positive, scene "S2A_20220503" 2%positive 3%positive);
    (2%positive, properties "G1" "2022-05-03T10:26:01.024000Z" (float (25 # 2)));
    (3%positive, asset "https://example.org/1/B04.tif");
    (4%positive, [("type", VStr "Feature"); ("id", VStr "S2A_20220513")]);
    (7%positive, scene "S2A_20220523" 8%positive 9%positive);
    (8%positive, properties "G3" "2022-05-23T10:26:01.024000Z" (int 95));
    (9%positive, asset "https://example.org/3/B04.tif") ].

Definition items_broken : ItemCollection := {|
  ic_store := objects_broken;
  ic_dict := [("type", VStr "FeatureCollection"); ("features", features)] |}.

Definition get_all_items_broken (p : SearchParams) : result ItemCollection :=
  Ok items_broken.

(** A catalog whose second scene has no value as cloud cover. *)
Definition objects_null : gmap loc pydict :=
  <[5%positive := properties "G2" "2022-05-13T10:26:01.024000Z" VNone]> objects.

Definition items_null : ItemCollection := {|
  ic_store := objects_null;
  ic_dict := [("type", VStr "FeatureCollection"); ("features", features)] |}.

Definition get_all_items_null (p : SearchParams) : result ItemCollection :=
  Ok items_null.

(** An answer without features. *)
Definition items_bare : ItemCollection := {|
  ic_store := ∅;
  ic_dict := [("type", VStr "FeatureCollection")] |}.

Definition get_all_items_bare (p : SearchParams) : result ItemCollection :=
  Ok items_bare.

(** A catalog that refuses the connection. *)
Definition Client_open_refused (url : string) : option exn :=
  Some (Exn (OtherError "APIError") "connection refused").

(** Two scenes that share one properties object. *)
Definition objects_shared : gmap loc pydict :=
  list_to_map [
    (1%positive, scene "S1A_20220503" 2%positive 3%positive);
    (2%positive, properties "G1" "2022-05-03T10:26:01.024000Z" (int 0));
    (3%positive, asset "https://example.org/1/vv.tif");
    (4%positive, scene "S1A_20220515" 2%positive 6%positive);
    (6%positive, asset "https://example.org/2/vv.tif") ].

Definition items_shared : ItemCollection := {|
  ic_store := objects_shared;
  ic_dict := [("type", VStr "FeatureCollection");
              ("features", VList [VRef 1%positive; VRef 4%positive])] |}.

Definition get_all_items_shared (p : SearchParams) : result ItemCollection :=
  Ok items_shared.

Definition bbox : Polygon := {|
  exterior := [(7 # 1, 47 # 1); (8 # 1, 47 # 1); (8 # 1, 46 # 1); (7 # 1, 46 # 1);
               (7 # 1, 47 # 1)]%Q |}.

Definition kw : kwargs := {|
  date_start := Date 2022 5 1;
  date_end := Date 2022 5 31;
  bounding_box := bbox;
  collection := None |}.

Definition start : state := State [] ∅.

(** The record [sentinel2] makes of a scene of the catalog. *)
Definition record (scene : pyval) : pydict :=
  match scene_meta_dict builtin_str strptime settings_MSPC objects scene with
  | Ok md => md
  | Raise _ => []
  end.

(** The three scenes by cloudy-pixel percentage and record. *)
Definition infos : list (pynum * pydict) := [
  (NFloat (FFin (25 # 2)), record (VRef 1%positive));
  (NInt 80, record (VRef 4%positive));
  (NInt 95, record (VRef 7%positive)) ].

(** The record of the scene of the other provider. *)
Definition record_AWS : pydict :=
  match scene_meta_dict builtin_str strptime settings_AWS objects_AWS (VRef 1%positive) with
  | Ok md => md
  | Raise _ => []
  end.

(** The three scenes as [sentinel1_rtc] reads them. *)
Definition views : list scene_view := [
  {| sv_scene := 1%positive; sv_properties := 2%positive;
     sv_props := properties "G1" "2022-05-03T10:26:01.024000Z" (float (25 # 2));
     sv_assets := VRef 3%positive |};
  {| sv_scene := 4%positive; sv_properties := 5%positive;
     sv_props := properties "G2" "2022-05-13T10:26:01.024000Z" (int 80);
     sv_assets := VRef 6%positive |};
  {| sv_scene := 7%positive; sv_properties := 8%positive;
     sv_props := properties "G3" "2022-05-23T10:26:01.024000Z" (int 95);
     sv_assets := VRef 9%positive |} ].

End Example.

(** ** Properties of [query_stac] *)

Section QueryProperties.

Variable Client_open : string -> option exn.
Variable Client_search : SearchParams -> option exn.
Variable get_all_items : SearchParams -> result ItemCollection.
Variable Settings : settings.

Local Abbreviation query :=
  (query_stac Client_open Client_search get_all_items Settings).
Local Abbreviation url := (URL (STAC_BACKEND Settings)).

(** One query, step by step: the outcome and the final state for each way
    the library can answer. *)
Lemma query_stac_run date_start date_end collection bounding_box st :
  let p := stac_search Settings date_start date_end collection bounding_box in
  query date_start date_end collection bounding_box st =
  match Client_open url with
  | Some e => (Raise e, State (trace st ++ [EvOpen url]) (store st))
  | None =>
      match Client_search p with
      | Some e => (Raise e, State (trace st ++ [EvOpen url; EvSearch p]) (store st))
      | None =>
          match get_all_items p with
          | Raise e =>
              (Raise e,
               State (trace st ++ [EvOpen url; EvSearch p; EvGetAllItems p]) (store st))
          | Ok items =>
              (dict_getitem (ic_dict items) "features",
               State (trace st ++ [EvOpen url; EvSearch p; EvGetAllItems p])
                     (ic_store items ∪ store st))
          end
      end
  end.
Proof.
  intros p. subst p.
  unfold query_stac, stac_search, open_catalog, cat_search, search_get_all_items,
    to_dict, emit, lift, raise, get_store, put_store, mbind, M_bind, mret, M_ret.
  cbn.
  destruct (Client_open url) as [e|]; cbn; [reflexivity|].
  destruct (Client_search _) as [e|]; cbn.
  { rewrite <- app_assoc. reflexivity. }
  destruct (get_all_items _) as [items|e]; cbn.
  - rewrite <- !app_assoc. cbn.
    destruct (dict_getitem (ic_dict items) "features"); reflexivity.
  - rewrite <- !app_assoc. reflexivity.
Qed.

(** C3. Whenever the connection to the catalog opens, [query_stac] has
    opened exactly the catalog at [Settings.STAC_BACKEND.URL] and issued
    exactly one search: for the given collection, with the given polygon as
    [intersects], with the date range made of the %Y-%m-%d rendering of
    [date_start], a slash and the %Y-%m-%d rendering of [date_end], and
    with [max_items = Settings.MAX_ITEMS] and [limit = Settings.LIMIT_ITEMS]. *)
Theorem query_stac_one_search date_start date_end collection bounding_box st :
  Client_open url = None ->
  exists new,
    trace (query date_start date_end collection bounding_box st).2 = trace st ++ new /\
    opened new = [url] /\
    searches new = [ {| collections := collection;
                        intersects := bounding_box;
                        datetime :=
                          strftime_Ymd date_start +:+ "/" +:+ strftime_Ymd date_end;
                        max_items := MAX_ITEMS Settings;
                        limit := LIMIT_ITEMS Settings |} ].
Proof.
  intros Hopen. rewrite query_stac_run, Hopen. cbv zeta.
  destruct (Client_search _) as [e|]; [|destruct (get_all_items _) as [items|e]];
    cbn [snd trace]; eexists; (split; [reflexivity|]); split; reflexivity.
Qed.

(** C7. [query_stac] neither retries nor recovers: one call opens the
    catalog at most once, searches at most once and fetches the items at
    most once; and when the connection, the search or the retrieval of the
    items fails with an exception [e], the call raises that same [e],
    returns no scenes and leaves the store of objects as it was. *)
Theorem query_stac_no_recovery date_start date_end collection bounding_box st e :
  library_failure Client_open Client_search get_all_items url
    (stac_search Settings date_start date_end collection bounding_box) = Some e ->
  let out := query date_start date_end collection bounding_box st in
  out.1 = Raise e /\
  store out.2 = store st /\
  exists new,
    trace out.2 = trace st ++ new /\
    (length (opened new) <= 1)%nat /\
    (length (searches new) <= 1)%nat /\
    (length (fetches new) <= 1)%nat.
Proof.
  intros Hfail out. subst out. unfold library_failure in Hfail.
  rewrite query_stac_run. cbv zeta.
  destruct (Client_open url) as [e1|].
  { injection Hfail as ->. cbn. repeat split; eexists; (split; [reflexivity|]); cbn; lia. }
  destruct (Client_search _) as [e2|].
  { injection Hfail as ->. cbn. repeat split; eexists; (split; [reflexivity|]); cbn; lia. }
  destruct (get_all_items _) as [items|e3]; [discriminate|].
  injection Hfail as ->. cbn. repeat split; eexists; (split; [reflexivity|]); cbn; lia.
Qed.

(** C9. [query_stac] neither filters nor transforms what the search found:
    when the library answers with an item collection, the call returns the
    value stored under ["features"] in the collection's dictionary form, as
    it is (the same list, in the same order), and adds the collection's
    objects to the store without changing them. *)
Theorem query_stac_returns_features date_start date_end collection bounding_box st
    items scenes :
  Client_open url = None ->
  Client_search (stac_search Settings date_start date_end collection bounding_box) = None ->
  get_all_items (stac_search Settings date_start date_end collection bounding_box)
    = Ok items ->
  dict_get "features" (ic_dict items) = Some scenes ->
  let out := query date_start date_end collection bounding_box st in
  out.1 = Ok scenes /\
  store out.2 = ic_store items ∪ store st /\
  forall l d, ic_store items !! l = Some d -> store out.2 !! l = Some d.
Proof.
  intros Hopen Hsearch Hitems Hfeat out. subst out.
  rewrite query_stac_run, Hopen. cbv zeta. rewrite Hsearch, Hitems.
  unfold dict_getitem. rewrite Hfeat. cbn. repeat split.
  intros l d Hl. apply lookup_union_Some_l. exact Hl.
Qed.

End QueryProperties.

(** The May 2022 query of the example catalog. *)
Lemma query_stac_one_search_witness :
  Example.Client_open (URL (STAC_BACKEND Example.settings_MSPC)) = None /\
  exists new,
    trace (query_stac Example.Client_open Example.Client_search Example.get_all_items
             Example.settings_MSPC (Date 2022 5 1) (Date 2022 5 31) "sentinel-2-l2a"
             Example.bbox Example.start).2 = trace Example.start ++ new /\
    opened new = ["https://planetarycomputer.microsoft.com/api/stac/v1"] /\
    searches new = [ {| collections := "sentinel-2-l2a";
                        intersects := Example.bbox;
                        datetime := "2022-05-01/2022-05-31";
                        max_items := 500;
                        limit := 5 |} ].
Proof.
  split; [reflexivity|].
  apply (query_stac_one_search Example.Client_open Example.Client_search
           Example.get_all_items Example.settings_MSPC (Date 2022 5 1) (Date 2022 5 31)
           "sentinel-2-l2a" Example.bbox Example.start).
  reflexivity.
Defined.

(** The server of the example catalog is down: the time-out reaches the caller. *)
Lemma query_stac_no_recovery_witness :
  library_failure Example.Client_open Example.Client_search Example.get_all_items_down
    (URL (STAC_BACKEND Example.settings_MSPC))
    (stac_search Example.settings_MSPC (Date 2022 5 1) (Date 2022 5 31) "sentinel-2-l2a"
       Example.bbox) = Some Example.timeout /\
  let out := query_stac Example.Client_open Example.Client_search
               Example.get_all_items_down Example.settings_MSPC (Date 2022 5 1)
               (Date 2022 5 31) "sentinel-2-l2a" Example.bbox Example.start in
  out.1 = Raise Example.timeout /\
  store out.2 = store Example.start /\
  exists new,
    trace out.2 = trace Example.start ++ new /\
    (length (opened new) <= 1)%nat /\
    (length (searches new) <= 1)%nat /\
    (length (fetches new) <= 1)%nat.
Proof.
  split; [reflexivity|].
  apply (query_stac_no_recovery Example.Client_open Example.Client_search
           Example.get_all_items_down Example.settings_MSPC (Date 2022 5 1)
           (Date 2022 5 31) "sentinel-2-l2a" Example.bbox Example.start Example.timeout).
  reflexivity.
Defined.

(** The example catalog answers with its three scenes, all of them returned. *)
Lemma query_stac_returns_features_witness :
  dict_get "features" (ic_dict Example.items) = Some Example.features /\
  let out := query_stac Example.Client_open Example.Client_search Example.get_all_items
               Example.settings_MSPC (Date 2022 5 1) (Date 2022 5 31) "sentinel-2-l2a"
               Example.bbox Example.start in
  out.1 = Ok (VList [VRef 1%positive; VRef 4%positive; VRef 7%positive]) /\
  store out.2 = ic_store Example.items ∪ store Example.start /\
  forall l d, ic_store Example.items !! l = Some d -> store out.2 !! l = Some d.
Proof.
  split; [reflexivity|].
  apply (query_stac_returns_features Example.Client_open Example.Client_search
           Example.get_all_items Example.settings_MSPC (Date 2022 5 1) (Date 2022 5 31)
           "sentinel-2-l2a" Example.bbox Example.start Example.items Example.features);
    reflexivity.
Defined.

(** ** Exceptions a computation can raise *)

Lemma result_bind_Ok {A B} (r : result A) (f : A -> result B) (b : B) :
  (r ≫= f) = Ok b -> exists a, r = Ok a /\ f a = Ok b.
Proof. destruct r as [a|e]; cbn; [eauto | discriminate]. Qed.

Lemma result_bind_no_ValueError {A B} (r : result A) (f : A -> result B) :
  is_ValueError r = false ->
  (forall a, is_ValueError (f a) = false) ->
  is_ValueError (r ≫= f) = false.
Proof. destruct r as [a|e]; cbn; auto. Qed.

Lemma no_ValueError_bind {A B} (m : M A) (f : A -> M B) :
  no_ValueError m -> (forall a, no_ValueError (f a)) -> no_ValueError (m ≫= f).
Proof.
  intros Hm Hf st. unfold mbind, M_bind. specialize (Hm st).
  destruct (m st) as [[a|e] st']; [apply Hf | exact Hm].
Qed.

Lemma no_ValueError_ret {A} (a : A) : no_ValueError (mret a).
Proof. intros st. reflexivity. Qed.

Lemma no_ValueError_lift {A} (r : result A) :
  is_ValueError r = false -> no_ValueError (lift r).
Proof. intros H st. exact H. Qed.

Lemma getitem_no_ValueError h x k : is_ValueError (getitem h x k) = false.
Proof.
  destruct x; try reflexivity. cbn.
  destruct (h !! l); [|reflexivity]. destruct (dict_get k p); reflexivity.
Qed.

Lemma dict_getitem_no_ValueError d k : is_ValueError (dict_getitem d k) = false.
Proof. unfold dict_getitem. destruct (dict_get k d); reflexivity. Qed.

Lemma py_iter_no_ValueError h x : is_ValueError (py_iter h x) = false.
Proof. destruct x; try reflexivity. cbn. destruct (h !! l); reflexivity. Qed.

Lemma setitem_no_ValueError x k v : no_ValueError (setitem x k v).
Proof.
  intros st. destruct x; try reflexivity.
  unfold setitem, mbind, M_bind, get_store. cbn.
  destruct (store st !! l); reflexivity.
Qed.

Lemma deref_comprehension_no_ValueError h l :
  is_ValueError (comprehension (deref h) l) = false.
Proof.
  induction l as [|x l IH]; [reflexivity|]. cbn [comprehension].
  apply result_bind_no_ValueError.
  - destruct x; try reflexivity. cbn. destruct (h !! l0); reflexivity.
  - intros d. apply result_bind_no_ValueError; [exact IH | reflexivity].
Qed.

(** ** Dictionaries and scene views *)

Lemma dict_get_set_eq k v d : dict_get k (dict_set k v d) = Some v.
Proof.
  induction d as [|[k' v'] d IH]; cbn.
  - rewrite String.eqb_refl. reflexivity.
  - destruct (String.eqb k k') eqn:E; cbn; rewrite E; [reflexivity | exact IH].
Qed.

Lemma dict_get_set_ne k k' v d : k' <> k -> dict_get k' (dict_set k v d) = dict_get k' d.
Proof.
  intros Hne. induction d as [|[k0 v0] d IH]; cbn.
  - apply String.eqb_neq in Hne. rewrite Hne. reflexivity.
  - destruct (String.eqb k k0) eqn:E; cbn.
    + apply String.eqb_eq in E as <-. apply String.eqb_neq in Hne. rewrite Hne. reflexivity.
    + destruct (String.eqb k' k0); [reflexivity | exact IH].
Qed.

Lemma view_scene_inv h scene v :
  view_scene h scene = Some v ->
  exists sd,
    scene = VRef (sv_scene v) /\
    h !! sv_scene v = Some sd /\
    dict_get "properties" sd = Some (VRef (sv_properties v)) /\
    h !! sv_properties v = Some (sv_props v) /\
    dict_get "assets" sd = Some (sv_assets v).
Proof.
  destruct scene as [| | | | | | |s]; try discriminate. cbn.
  destruct (h !! s) as [sd|] eqn:Hs; [|discriminate]. cbn.
  destruct (dict_get "properties" sd) as [[| | | | | | |p]|] eqn:Hp; try discriminate.
  destruct (h !! p) as [props|] eqn:Hprops; [|discriminate]. cbn.
  destruct (dict_get "assets" sd) as [assets|] eqn:Ha; [|discriminate]. cbn.
  intros [= <-]. cbn. exists sd. repeat split; assumption.
Qed.

(** Writing to an object that is neither the scene nor its properties leaves
    the view of the scene as it was. *)
Lemma view_scene_insert (h : gmap loc pydict) scene v p d :
  view_scene h scene = Some v ->
  sv_scene v <> p -> sv_properties v <> p ->
  view_scene (<[p := d]> h) scene = Some v.
Proof.
  intros Hv Hs Hp.
  destruct (view_scene_inv h scene v Hv) as (sd & -> & Hsd & Hprops & Hpd & Hassets).
  cbn. rewrite lookup_insert_ne by congruence. rewrite Hsd. cbn. rewrite Hprops.
  rewrite lookup_insert_ne by congruence. rewrite Hpd. cbn. rewrite Hassets. cbn.
  destruct v; reflexivity.
Qed.

Lemma views_insert (h : gmap loc pydict) scenes views p d :
  Forall2 (fun scene v => view_scene h scene = Some v) scenes views ->
  p ∉ (sv_properties <$> views) ->
  Forall (fun v => sv_scene v <> p) views ->
  Forall2 (fun scene v => view_scene (<[p := d]> h) scene = Some v) scenes views.
Proof.
  induction 1 as [|scene v scenes views Hv _ IH]; intros Hp Hs; [constructor|].
  cbn [fmap list_fmap] in Hp. apply not_elem_of_cons in Hp as [Hne Hp].
  apply Forall_cons in Hs as [Hs Hss]. constructor.
  - apply view_scene_insert; [exact Hv | exact Hs | congruence].
  - apply IH; assumption.
Qed.

Lemma deref_rows (h : gmap loc pydict) views :
  (forall v, v ∈ views -> h !! sv_properties v = Some (view_row v)) ->
  comprehension (deref h) ((fun v => VRef (sv_properties v)) <$> views)
    = Ok (view_row <$> views).
Proof.
  induction views as [|v vs IH]; intros H; [reflexivity|].
  cbn. rewrite (H v) by left. cbn. rewrite IH; [reflexivity|].
  intros v' Hv'. apply H. right. exact Hv'.
Qed.

(** The loop of [sentinel1_rtc] on scenes that share no object: it returns
    the properties objects in the order of the scenes, each one now holding
    the assets of its scene, and touches nothing else. *)
Lemma sentinel1_rtc_loop_spec scenes : forall views acc st,
  Forall2 (fun scene v => view_scene (store st) scene = Some v) scenes views ->
  separate views ->
  exists h',
    sentinel1_rtc_loop scenes acc st
      = (Ok (acc ++ ((fun v => VRef (sv_properties v)) <$> views)), State (trace st) h') /\
    (forall v, v ∈ views -> h' !! sv_properties v = Some (view_row v)) /\
    (forall l, l ∉ (sv_properties <$> views) -> h' !! l = store st !! l).
Proof.
  induction scenes as [|scene rest IH]; intros views acc st HF [Hnd Hsep].
  - inversion HF; subst. exists (store st). cbn. rewrite app_nil_r.
    split; [destruct st; reflexivity|]. split; [|reflexivity].
    intros v Hv. apply elem_of_nil in Hv. contradiction.
  - inversion HF as [|? v ? vs Hv HF']; subst. clear HF.
    destruct (view_scene_inv _ _ _ Hv) as (sd & -> & Hsd & Hprops & Hpd & Hassets).
    cbn [fmap list_fmap] in Hnd, Hsep. apply NoDup_cons in Hnd as [Hp Hnd].
    apply Forall_cons in Hsep as [Hs Hsep].
    set (h1 := <[sv_properties v := view_row v]> (store st)).
    destruct (IH vs (acc ++ [VRef (sv_properties v)]) (State (trace st) h1))
      as (h' & Hrun & Hrows & Hother).
    { cbn [store]. apply views_insert; [exact HF' | exact Hp |].
      eapply Forall_impl; [exact Hsep|]. cbn. intros x Hx E. apply Hx. rewrite E. left. }
    { split; [exact Hnd|]. eapply Forall_impl; [exact Hsep|]. cbn.
      intros x Hx Hin. apply Hx. right. exact Hin. }
    exists h'. split; [|split].
    + cbn [sentinel1_rtc_loop]. unfold mbind, M_bind, get_store, lift. cbn [getitem].
      rewrite Hsd. cbn iota beta. rewrite Hprops, Hassets. cbn iota beta.
      unfold setitem, mbind, M_bind, get_store, put_store. rewrite Hpd. cbn iota beta.
      fold (view_row v). cbn [trace]. fold h1. rewrite Hrun. cbn [trace].
      rewrite <- app_assoc. reflexivity.
    + intros v' Hv'. apply elem_of_cons in Hv' as [->|Hv']; [|apply Hrows, Hv'].
      rewrite Hother by exact Hp. cbn [store]. unfold h1. apply lookup_insert_eq.
    + intros l Hl. cbn [fmap list_fmap] in Hl. apply not_elem_of_cons in Hl as [Hne Hl].
      rewrite Hother by exact Hl. cbn [store]. unfold h1. apply lookup_insert_ne. congruence.
Qed.

(** ** Properties of the sensor-specific queries *)

Section SensorProperties.

Variable builtin_str : gmap loc pydict -> pyval -> string.
Variable strptime : string -> string -> result pydatetime.
Variable Client_open : string -> option exn.
Variable Client_search : SearchParams -> option exn.
Variable get_all_items : SearchParams -> result ItemCollection.
Variable Settings : settings.

Local Abbreviation query := (query_stac Client_open Client_search get_all_items Settings).
Local Abbreviation call_query :=
  (call_query_stac Client_open Client_search get_all_items Settings).
Local Abbreviation s1 := (sentinel1_rtc Client_open Client_search get_all_items Settings).
Local Abbreviation s1_loop := sentinel1_rtc_loop.
Local Abbreviation s2 :=
  (sentinel2 builtin_str strptime Client_open Client_search get_all_items Settings).
Local Abbreviation meta_dict_of := (scene_meta_dict builtin_str strptime Settings).
Local Abbreviation s2_loop := (sentinel2_loop builtin_str strptime Settings).
Local Abbreviation url := (URL (STAC_BACKEND Settings)).
Local Abbreviation failure := (library_failure Client_open Client_search get_all_items url).

Lemma sentinel1_rtc_loop_no_ValueError scenes acc : no_ValueError (s1_loop scenes acc).
Proof.
  revert acc. induction scenes as [|scene rest IH]; intros acc; cbn [sentinel1_rtc_loop].
  - apply no_ValueError_ret.
  - apply no_ValueError_bind; [intros st; reflexivity|]. intros h.
    apply no_ValueError_bind; [apply no_ValueError_lift, getitem_no_ValueError|].
    intros md.
    apply no_ValueError_bind; [apply no_ValueError_lift, getitem_no_ValueError|].
    intros assets.
    apply no_ValueError_bind; [apply setitem_no_ValueError|]. intros _. apply IH.
Qed.

Lemma query_stac_no_ValueError date_start date_end collection bounding_box :
  (forall e,
     failure (stac_search Settings date_start date_end collection bounding_box) = Some e ->
     exn_cls e <> ValueError) ->
  no_ValueError (query date_start date_end collection bounding_box).
Proof.
  intros Hlib st. rewrite query_stac_run. cbv zeta.
  unfold library_failure in Hlib.
  assert (Hcls : forall e, exn_cls e <> ValueError -> is_ValueError (@Raise pyval e) = false).
  { intros [[] msg] H; cbn in *; congruence. }
  destruct (Client_open url) as [e|]; [apply Hcls, Hlib; reflexivity|].
  destruct (Client_search _) as [e|]; [apply Hcls, Hlib; reflexivity|].
  destruct (get_all_items _) as [items|e]; [|apply Hcls, Hlib; reflexivity].
  apply dict_getitem_no_ValueError.
Qed.

(** When the configuration is missing, [sentinel1_rtc] stops at one of its
    three checks: it raises a [ValueError] and the state, the trace of
    library calls included, is untouched. *)
Lemma sentinel1_rtc_config_missing kw st :
  config_missing Settings ->
  is_ValueError (s1 kw st).1 = true /\ (s1 kw st).2 = st.
Proof.
  unfold config_missing, sentinel1_rtc.
  destruct (USE_STAC Settings); cbn [negb]; [|split; reflexivity].
  destruct (bool_decide_reflect (provider (STAC_BACKEND Settings) = MSPC)) as [Hp|Hp];
    cbn [negb]; [|split; reflexivity].
  destruct (String.eqb_spec (PC_SDK_SUBSCRIPTION_KEY Settings) "") as [Hk|Hk];
    [split; reflexivity|].
  intros [H|[H|H]]; [discriminate | contradiction | contradiction].
Qed.

(** With the configuration in place, [sentinel1_rtc] is its query followed
    by its loop. *)
Lemma sentinel1_rtc_config_ok kw :
  ~ config_missing Settings ->
  s1 kw =
    (scenes ← call_query (kwargs_update_collection "sentinel-1-rtc" kw);
     h ← get_store;
     scene_list ← lift (py_iter h scenes);
     metadata_list ← s1_loop scene_list [];
     pd_DataFrame metadata_list).
Proof.
  unfold config_missing, sentinel1_rtc. intros Hcfg.
  destruct (USE_STAC Settings); cbn [negb]; [|tauto].
  destruct (bool_decide_reflect (provider (STAC_BACKEND Settings) = MSPC)) as [Hp|Hp];
    cbn [negb]; [|tauto].
  destruct (String.eqb_spec (PC_SDK_SUBSCRIPTION_KEY Settings) "") as [Hk|Hk]; [tauto|].
  reflexivity.
Qed.

(** C2. Provided the STAC client library itself raises no [ValueError],
    [sentinel1_rtc] raises a [ValueError] if and only if [Settings.USE_STAC]
    is false, [Settings.STAC_BACKEND] is not [STAC_Providers.MSPC] or
    [Settings.PC_SDK_SUBSCRIPTION_KEY] is the empty string; and when it
    raises one, no call to the catalog has been made: the state, with its
    trace, is the one the function started in. *)
Theorem sentinel1_rtc_ValueError_iff kw st :
  (forall e,
     failure (stac_search Settings (date_start kw) (date_end kw) "sentinel-1-rtc"
                (bounding_box kw)) = Some e ->
     exn_cls e <> ValueError) ->
  (is_ValueError (s1 kw st).1 = true <-> config_missing Settings) /\
  (is_ValueError (s1 kw st).1 = true -> (s1 kw st).2 = st).
Proof.
  intros Hlib.
  assert (Hok : ~ config_missing Settings -> is_ValueError (s1 kw st).1 = false).
  { intros Hcfg. rewrite (sentinel1_rtc_config_ok kw Hcfg). revert st.
    apply no_ValueError_bind.
    { unfold call_query_stac. cbn [collection kwargs_update_collection date_start date_end
        bounding_box]. apply query_stac_no_ValueError, Hlib. }
    intros scenes. apply no_ValueError_bind; [intros st; reflexivity|]. intros h.
    apply no_ValueError_bind; [apply no_ValueError_lift, py_iter_no_ValueError|].
    intros scene_list.
    apply no_ValueError_bind; [apply sentinel1_rtc_loop_no_ValueError|].
    intros metadata_list. unfold pd_DataFrame.
    apply no_ValueError_bind; [intros st; reflexivity|]. intros h'.
    apply no_ValueError_lift, deref_comprehension_no_ValueError. }
  assert (Hdec : config_missing Settings \/ ~ config_missing Settings).
  { unfold config_missing.
    destruct (USE_STAC Settings); [|auto].
    destruct (decide (provider (STAC_BACKEND Settings) = MSPC)) as [Hp|Hp]; [|auto].
    destruct (String.eqb_spec (PC_SDK_SUBSCRIPTION_KEY Settings) "") as [Hk|Hk]; [auto|].
    right. intros [H|[H|H]]; [discriminate | contradiction | contradiction]. }
  destruct Hdec as [Hmiss|Hcfg].
  - destruct (sentinel1_rtc_config_missing kw st Hmiss) as [Hv Hst]. tauto.
  - specialize (Hok Hcfg). rewrite Hok. split; [split|]; [discriminate | tauto | discriminate].
Qed.

Local Abbreviation names := (Sentinel2 (STAC_BACKEND Settings)).
Local Abbreviation answers := (library_answers Client_open Client_search get_all_items url).

(** [sentinel2] is its query followed by its loop over the scenes found; the
    state it ends in is the one the query left. *)
Lemma sentinel2_run thr lvl kw st :
  s2 thr lvl kw st =
  let out := query (date_start kw) (date_end kw) (level_collection Settings lvl)
               (bounding_box kw) st in
  match out.1 with
  | Ok scenes =>
      (py_iter (store out.2) scenes ≫= (fun l => s2_loop (store out.2) thr l []), out.2)
  | Raise e => (Raise e, out.2)
  end.
Proof.
  unfold sentinel2, call_query_stac, level_collection.
  cbn [collection kwargs_update_collection date_start date_end bounding_box].
  unfold mbind at 1. unfold M_bind at 1. cbv zeta.
  destruct (query _ _ _ _ st) as [[scenes|e] st']; cbn [fst snd]; [|reflexivity].
  unfold mbind, M_bind, get_store, lift, mret, M_ret, result_bind. cbn.
  destruct (py_iter (store st') scenes) as [l|e]; [|reflexivity].
  destruct (sentinel2_loop _ _ _ _ _ l []); reflexivity.
Qed.

(** What the query leaves when the library answers. *)
Lemma query_stac_answers date_start date_end collection bounding_box st items :
  answers (stac_search Settings date_start date_end collection bounding_box) items ->
  query date_start date_end collection bounding_box st =
  (dict_getitem (ic_dict items) "features",
   State (trace st ++ [EvOpen url;
                       EvSearch (stac_search Settings date_start date_end collection
                                   bounding_box);
                       EvGetAllItems (stac_search Settings date_start date_end collection
                                        bounding_box)])
         (ic_store items ∪ store st)).
Proof.
  intros (Hopen & Hsearch & Hitems).
  rewrite query_stac_run, Hopen. cbv zeta. rewrite Hsearch, Hitems. reflexivity.
Qed.

Lemma comprehension_map {A B C} (f : A -> result B) (g : B -> C) l ys :
  comprehension (fun x => v ← f x; mret (g v)) l = Ok ys ->
  exists vs, comprehension f l = Ok vs /\ ys = g <$> vs.
Proof.
  revert ys. induction l as [|x l IH]; intros ys H; cbn [comprehension] in *.
  - injection H as <-. exists []. split; reflexivity.
  - apply result_bind_Ok in H as (y & Hy & H). cbv beta in H.
    apply result_bind_Ok in Hy as (v & Hv & Hy). cbv beta in Hy. injection Hy as <-.
    apply result_bind_Ok in H as (ys' & Hys & H). cbv beta in H. injection H as <-.
    destruct (IH ys' Hys) as (vs & Hvs & ->).
    exists (v :: vs). rewrite Hv. cbn. rewrite Hvs. split; reflexivity.
Qed.

(** The record of a scene, entry by entry. *)
Lemma scene_meta_dict_inv h scene md :
  meta_dict_of h scene = Ok md ->
  exists props tile uri sid spacecraft text dt cloud code time azimuth zenith assets,
    getitem h scene "properties" = Ok props /\
    match tile_id names with
    | TileNames keys =>
        exists vals, comprehension (getitem h props) keys = Ok vals /\
          tile = VStr (String.concat "" (py_str builtin_str h <$> vals))
    | TileName key => getitem h props key = Ok tile
    end /\
    getitem h props (sensing_time names) = Ok (VStr text) /\
    strptime (split_T_head text) "%Y-%m-%d" = Ok dt /\
    strptime text (sensing_time_fmt names) = Ok time /\
    getitem h props (cloud_cover names) = Ok cloud /\
    getitem h scene "assets" = Ok assets /\
    md = [ ("product_uri", uri); ("scene_id", sid); ("spacecraft_name", spacecraft);
           ("tile_id", tile); ("sensing_date", VDate (dt_date dt));
           ("cloudy_pixel_percentage", cloud); ("epsg", code);
           ("sensing_time", VDatetime time); ("sun_azimuth_angle", azimuth);
           ("sun_zenith_angle", zenith); ("assets", assets) ].
Proof.
  unfold scene_meta_dict. intros H.
  apply result_bind_Ok in H as (props & Hprops & H); cbv beta in H.
  apply result_bind_Ok in H as (tile & Htile & H); cbv beta in H.
  apply result_bind_Ok in H as (uri & Huri & H); cbv beta in H.
  apply result_bind_Ok in H as (sid & Hsid & H); cbv beta in H.
  apply result_bind_Ok in H as (spacecraft & Hsp & H); cbv beta in H.
  apply result_bind_Ok in H as (t1 & Ht1 & H); cbv beta in H.
  apply result_bind_Ok in H as (text' & Htext & H); cbv beta in H.
  apply result_bind_Ok in H as (dt & Hdt & H); cbv beta in H.
  apply result_bind_Ok in H as (cloud & Hcloud & H); cbv beta in H.
  apply result_bind_Ok in H as (code & Hcode & H); cbv beta in H.
  apply result_bind_Ok in H as (t2 & Ht2 & H); cbv beta in H.
  apply result_bind_Ok in H as (time & Htime & H); cbv beta in H.
  apply result_bind_Ok in H as (azimuth & Haz & H); cbv beta in H.
  apply result_bind_Ok in H as (zenith & Hzen & H); cbv beta in H.
  apply result_bind_Ok in H as (assets & Hassets & H); cbv beta in H.
  cbv zeta in H. injection H as <-.
  rewrite Ht1 in Ht2. injection Ht2 as <-.
  destruct t1 as [| | |text| | | |]; try discriminate Htext.
  cbn in Htext. injection Htext as <-. cbn in Htime.
  exists props, tile, uri, sid, spacecraft, text, dt, cloud, code, time, azimuth, zenith,
    assets.
  split; [exact Hprops|]. split.
  { destruct (tile_id names) as [key|keys]; [exact Htile|].
    apply result_bind_Ok in Htile as (strs & Hstrs & Htile). cbv beta in Htile.
    injection Htile as <-.
    apply comprehension_map in Hstrs as (vals & Hvals & ->). eauto. }
  repeat split; assumption || reflexivity.
Qed.

Lemma scene_meta_dict_cloud h scene md :
  meta_dict_of h scene = Ok md ->
  scene_cloud_cover Settings h scene = dict_getitem md "cloudy_pixel_percentage" /\
  dict_keys md = sentinel2_columns.
Proof.
  intros H. apply scene_meta_dict_inv in H
    as (props & tile & uri & sid & spacecraft & text & dt & cloud & code & time & azimuth
        & zenith & assets & Hprops & _ & _ & _ & _ & Hcloud & _ & ->).
  unfold scene_cloud_cover. rewrite Hprops. cbn. rewrite Hcloud. split; reflexivity.
Qed.

Lemma float_le_refl x : x <> FNan -> float_le x x = true.
Proof.
  destruct x as [|[]|q]; cbn; try congruence; intros _.
  apply Qle_bool_iff, Qle_refl.
Qed.

Lemma num_le_refl n : is_nan n = false -> num_le n n = true.
Proof.
  intros H. unfold num_le. apply float_le_refl.
  destruct n as [z|[| |]]; cbn in *; congruence.
Qed.

(** The loop keeps the records of the scenes at or below the threshold, in
    the order of the scenes. *)
Lemma sentinel2_loop_filter h thr scenes (infos : list (pynum * pydict)) acc :
  Forall2 (fun scene i =>
             meta_dict_of h scene = Ok i.2 /\
             exists c, scene_cloud_cover Settings h scene = Ok c /\ as_number c = Some i.1)
          scenes infos ->
  s2_loop h thr scenes acc = Ok (acc ++ (snd <$> List.filter (fun i => num_le i.1 thr) infos)).
Proof.
  intros HF. revert acc.
  induction HF as [|scene [n md] scenes infos (Hmd & c & Hc & Hn) _ IH]; intros acc.
  - cbn. rewrite app_nil_r. reflexivity.
  - cbn [sentinel2_loop]. cbn [fst snd] in *. rewrite Hmd. cbn.
    destruct (scene_meta_dict_cloud h scene md Hmd) as [Heq _].
    rewrite <- Heq, Hc. cbn. unfold py_le. rewrite Hn. cbn.
    rewrite IH. destruct (num_le n thr); cbn; [|reflexivity].
    rewrite <- app_assoc. reflexivity.
Qed.

(** Every record the loop adds is the record of one of the scenes. *)
Lemma sentinel2_loop_rows h thr scenes acc rows :
  s2_loop h thr scenes acc = Ok rows ->
  forall row, row ∈ rows ->
    row ∈ acc \/ exists scene, scene ∈ scenes /\ meta_dict_of h scene = Ok row.
Proof.
  revert acc. induction scenes as [|scene rest IH]; intros acc H row Hrow.
  - cbn in H. injection H as <-. left. exact Hrow.
  - cbn [sentinel2_loop] in H.
    apply result_bind_Ok in H as (md & Hmd & H); cbv beta in H.
    apply result_bind_Ok in H as (cloud & Hcloud & H); cbv beta in H.
    apply result_bind_Ok in H as (keep & Hkeep & H); cbv beta in H.
    destruct (IH _ H row Hrow) as [Hacc|(sc & Hsc & Hrec)].
    + destruct keep; [|left; exact Hacc].
      apply elem_of_app in Hacc as [Hacc|Hmd']; [left; exact Hacc|].
      apply list_elem_of_singleton in Hmd' as ->.
      right. exists scene. split; [left|exact Hmd].
    + right. exists sc. split; [right; exact Hsc|exact Hrec].
Qed.

(** C4. When the STAC query returns a list of scenes, each with its record
    and with a number as cloudy-pixel percentage, the frame [sentinel2]
    returns has a row for exactly the scenes whose percentage is less than or
    equal to [cloud_cover_threshold], in the order of the scenes; a scene
    whose percentage equals the threshold is kept. *)
Theorem sentinel2_cloud_filter thr lvl kw st items features scene_list
    (infos : list (pynum * pydict)) :
  answers (stac_search Settings (date_start kw) (date_end kw)
             (level_collection Settings lvl) (bounding_box kw)) items ->
  dict_get "features" (ic_dict items) = Some features ->
  py_iter (ic_store items ∪ store st) features = Ok scene_list ->
  Forall2 (fun scene i =>
             meta_dict_of (ic_store items ∪ store st) scene = Ok i.2 /\
             exists c, scene_cloud_cover Settings (ic_store items ∪ store st) scene = Ok c /\
                       as_number c = Some i.1)
          scene_list infos ->
  (s2 thr lvl kw st).1 = Ok (snd <$> List.filter (fun i => num_le i.1 thr) infos) /\
  (forall i, i ∈ infos -> i.1 = thr -> is_nan thr = false ->
     i.2 ∈ snd <$> List.filter (fun i => num_le i.1 thr) infos).
Proof.
  intros Hans Hfeat Hiter Hinfos. split.
  - rewrite sentinel2_run. cbv zeta. rewrite (query_stac_answers _ _ _ _ _ _ Hans).
    unfold dict_getitem. rewrite Hfeat. cbn [fst snd store]. rewrite Hiter. cbn.
    rewrite (sentinel2_loop_filter _ _ _ _ _ Hinfos). reflexivity.
  - intros i Hi Heq Hnan. apply list_elem_of_fmap. exists i. split; [reflexivity|].
    apply list_elem_of_In, filter_In. split; [apply list_elem_of_In, Hi|].
    rewrite Heq. apply num_le_refl, Hnan.
Qed.

(** C5. Every record of the frame [sentinel2] returns follows the uniform
    schema: its keys are exactly [product_uri], [scene_id], [spacecraft_name],
    [tile_id], [sensing_date], [cloudy_pixel_percentage], [epsg],
    [sensing_time], [sun_azimuth_angle], [sun_zenith_angle] and [assets]; it
    is the record of a scene the query returned; when the provider names the
    tile by a list of properties, [tile_id] is the concatenation of the
    string values of these properties in list order; and [sensing_date] is
    the date read from the text of the sensing-time property before its
    first ['T']. *)
Theorem sentinel2_uniform_schema thr lvl kw st rows row :
  (s2 thr lvl kw st).1 = Ok rows ->
  row ∈ rows ->
  let h := store (s2 thr lvl kw st).2 in
  dict_keys row = sentinel2_columns /\
  exists scenes scene_list scene props text dt,
    (query (date_start kw) (date_end kw) (level_collection Settings lvl)
       (bounding_box kw) st).1 = Ok scenes /\
    py_iter h scenes = Ok scene_list /\
    scene ∈ scene_list /\
    getitem h scene "properties" = Ok props /\
    (forall keys, tile_id names = TileNames keys ->
       exists vals, comprehension (getitem h props) keys = Ok vals /\
         dict_get "tile_id" row
           = Some (VStr (String.concat "" (py_str builtin_str h <$> vals)))) /\
    getitem h props (sensing_time names) = Ok (VStr text) /\
    strptime (split_T_head text) "%Y-%m-%d" = Ok dt /\
    dict_get "sensing_date" row = Some (VDate (dt_date dt)).
Proof.
  intros Hrows Hrow h. subst h. revert Hrows. rewrite sentinel2_run. cbv zeta.
  destruct (query _ _ _ _ st) as [[scenes|e] st']; cbn [fst snd]; [|discriminate].
  intros Hrows. apply result_bind_Ok in Hrows as (scene_list & Hiter & Hloop).
  cbv beta in Hloop.
  destruct (sentinel2_loop_rows _ _ _ _ _ Hloop row Hrow) as [Hnil|(scene & Hin & Hmd)].
  { apply elem_of_nil in Hnil. contradiction. }
  destruct (scene_meta_dict_cloud _ _ _ Hmd) as [_ Hkeys]. split; [exact Hkeys|].
  apply scene_meta_dict_inv in Hmd
    as (props & tile & uri & sid & spacecraft & text & dt & cloud & code & time & azimuth
        & zenith & assets & Hprops & Htile & Htext & Hdt & _ & _ & _ & ->).
  exists scenes, scene_list, scene, props, text, dt.
  repeat (split; [assumption || reflexivity|]). split; [|repeat split; assumption].
  intros keys Hkeys'. rewrite Hkeys' in Htile. destruct Htile as (vals & Hvals & ->).
  exists vals. split; [exact Hvals | reflexivity].
Qed.

(** C10. With its configuration in place, [sentinel1_rtc] never filters:
    for scenes that share no object, the frame it returns has exactly one
    row per scene the query returned, in query order, and the row of a scene
    is its properties dictionary with the scene's assets stored under
    [assets]; every other entry of the properties is there under its own key
    with its own value. *)
Theorem sentinel1_rtc_rows kw st items features scene_list views :
  ~ config_missing Settings ->
  answers (stac_search Settings (date_start kw) (date_end kw) "sentinel-1-rtc"
             (bounding_box kw)) items ->
  dict_get "features" (ic_dict items) = Some features ->
  py_iter (ic_store items ∪ store st) features = Ok scene_list ->
  Forall2 (fun scene v => view_scene (ic_store items ∪ store st) scene = Some v)
          scene_list views ->
  separate views ->
  (s1 kw st).1 = Ok (view_row <$> views) /\
  length (view_row <$> views) = length scene_list /\
  Forall (fun v =>
            view_row v = dict_set "assets" (sv_assets v) (sv_props v) /\
            dict_get "assets" (view_row v) = Some (sv_assets v) /\
            forall k, k <> "assets" -> dict_get k (view_row v) = dict_get k (sv_props v))
         views.
Proof.
  intros Hcfg Hans Hfeat Hiter Hviews Hsep. split; [|split].
  - rewrite (sentinel1_rtc_config_ok kw Hcfg).
    unfold call_query_stac.
    cbn [collection kwargs_update_collection date_start date_end bounding_box].
    unfold mbind at 1. unfold M_bind at 1.
    rewrite (query_stac_answers _ _ _ _ _ _ Hans). unfold dict_getitem. rewrite Hfeat.
    unfold mbind at 1. unfold M_bind at 1. cbn [get_store store].
    unfold mbind at 1. unfold M_bind at 1. unfold lift at 1. rewrite Hiter.
    unfold mbind at 1. unfold M_bind at 1.
    match goal with |- context [sentinel1_rtc_loop scene_list [] ?st1] =>
      destruct (sentinel1_rtc_loop_spec scene_list views [] st1 Hviews Hsep)
        as (h' & Hrun & Hrows & _); rewrite Hrun end.
    cbn [app]. unfold pd_DataFrame, mbind, M_bind, get_store, lift. cbn [store fst].
    apply deref_rows, Hrows.
  - rewrite length_fmap. symmetry. eapply Forall2_length, Hviews.
  - apply Forall_forall. intros v _. split; [reflexivity|]. split.
    + apply dict_get_set_eq.
    + intros k Hk. apply dict_get_set_ne, Hk.
Qed.

(** C1, as the code has it. When the configuration is missing (STAC is not
    enabled, the provider is not Microsoft Planetary Computer or the key is
    empty), [sentinel1_rtc] raises a [ValueError] before any call to the
    catalog.  [sentinel2] has no such check: with the same settings it goes
    on to open the catalog at [Settings.STAC_BACKEND.URL]. *)
Theorem sentinel1_rtc_checks_configuration thr lvl kw st :
  config_missing Settings ->
  (is_ValueError (s1 kw st).1 = true /\ (s1 kw st).2 = st) /\
  exists rest, trace (s2 thr lvl kw st).2 = trace st ++ EvOpen url :: rest.
Proof.
  intros Hmiss. split; [apply sentinel1_rtc_config_missing, Hmiss|].
  rewrite sentinel2_run. cbv zeta. rewrite query_stac_run. cbv zeta.
  destruct (Client_open url) as [e|]; cbn [fst snd trace]; [eexists; reflexivity|].
  destruct (Client_search _) as [e|]; cbn [fst snd trace]; [eexists; reflexivity|].
  destruct (get_all_items _) as [items|e]; cbn [fst snd trace]; [|eexists; reflexivity].
  destruct (dict_getitem (ic_dict items) "features"); cbn [fst snd trace];
    eexists; reflexivity.
Qed.

End SensorProperties.

(** ** The client on the example catalog *)

(** The three fixed properties of the other provider make the tile name. *)
Example record_AWS_tile_id :
  dict_get "tile_id" Example.record_AWS = Some (VStr "32TMT") /\
  dict_get "sensing_date" Example.record_AWS = Some (VDate (Date 2022 5 3)).
Proof. split; reflexivity. Qed.

(** C1 as stated fails for [sentinel2]: with STAC switched off and no key,
    it raises nothing, searches the catalog and returns two rows. *)
Lemma sentinel2_queries_without_configuration :
  config_missing Example.settings_off /\
  let out := sentinel2 Example.builtin_str Example.strptime Example.Client_open
               Example.Client_search Example.get_all_items Example.settings_off
               (NInt 80) L2A Example.kw Example.start in
  is_ValueError out.1 = false /\
  out.1 = Ok [Example.record (VRef 1%positive); Example.record (VRef 4%positive)] /\
  searches (trace out.2)
    = [stac_search Example.settings_off (Date 2022 5 1) (Date 2022 5 31) "sentinel-2-l2a"
         Example.bbox].
Proof. split; [left; reflexivity|]. vm_compute. repeat split. Qed.

(** Without configuration [sentinel1_rtc] stops; [sentinel2] opens the catalog. *)
Lemma sentinel1_rtc_checks_configuration_witness :
  config_missing Example.settings_off /\
  (is_ValueError (sentinel1_rtc Example.Client_open Example.Client_search
                    Example.get_all_items Example.settings_off Example.kw
                    Example.start).1 = true /\
   (sentinel1_rtc Example.Client_open Example.Client_search Example.get_all_items
      Example.settings_off Example.kw Example.start).2 = Example.start) /\
  exists rest,
    trace (sentinel2 Example.builtin_str Example.strptime Example.Client_open
             Example.Client_search Example.get_all_items Example.settings_off
             (NInt 80) L2A Example.kw Example.start).2
    = trace Example.start ++ EvOpen (URL (STAC_BACKEND Example.settings_off)) :: rest.
Proof.
  split; [left; reflexivity|].
  apply (sentinel1_rtc_checks_configuration Example.builtin_str Example.strptime
           Example.Client_open Example.Client_search Example.get_all_items
           Example.settings_off (NInt 80) L2A Example.kw Example.start).
  left. reflexivity.
Defined.

(** The configuration is in place and the server is down: the time-out is
    raised, no [ValueError]. *)
Lemma sentinel1_rtc_ValueError_iff_witness :
  (is_ValueError (sentinel1_rtc Example.Client_open Example.Client_search
                    Example.get_all_items_down Example.settings_MSPC Example.kw
                    Example.start).1 = true
   <-> config_missing Example.settings_MSPC) /\
  (is_ValueError (sentinel1_rtc Example.Client_open Example.Client_search
                    Example.get_all_items_down Example.settings_MSPC Example.kw
                    Example.start).1 = true ->
   (sentinel1_rtc Example.Client_open Example.Client_search Example.get_all_items_down
      Example.settings_MSPC Example.kw Example.start).2 = Example.start).
Proof.
  apply (sentinel1_rtc_ValueError_iff Example.Client_open Example.Client_search
           Example.get_all_items_down Example.settings_MSPC Example.kw Example.start).
  intros e H. vm_compute in H. injection H as <-. discriminate.
Defined.

(** Threshold 80 on the example catalog: the scenes at 12.5 and at 80
    percent stay, the scene at 95 percent goes. *)
Lemma sentinel2_cloud_filter_witness :
  (sentinel2 Example.builtin_str Example.strptime Example.Client_open
     Example.Client_search Example.get_all_items Example.settings_MSPC (NInt 80) L2A
     Example.kw Example.start).1
  = Ok (snd <$> List.filter (fun i => num_le i.1 (NInt 80)) Example.infos) /\
  (forall i, i ∈ Example.infos -> i.1 = NInt 80 -> is_nan (NInt 80) = false ->
     i.2 ∈ snd <$> List.filter (fun i => num_le i.1 (NInt 80)) Example.infos).
Proof.
  apply (sentinel2_cloud_filter Example.builtin_str Example.strptime Example.Client_open
           Example.Client_search Example.get_all_items Example.settings_MSPC (NInt 80) L2A
           Example.kw Example.start Example.items Example.features
           [VRef 1%positive; VRef 4%positive; VRef 7%positive] Example.infos).
  - repeat split.
  - reflexivity.
  - reflexivity.
  - repeat constructor; cbn [fst snd]; try (vm_compute; reflexivity);
      eexists; split; vm_compute; reflexivity.
Defined.

(** The scene of the other provider: its record has the eleven keys, tile
    32TMT and the date of 3 May 2022. *)
Lemma sentinel2_uniform_schema_witness :
  let h := store (sentinel2 Example.builtin_str Example.strptime Example.Client_open
                    Example.Client_search Example.get_all_items_AWS Example.settings_AWS
                    (NInt 80) L2A Example.kw Example.start).2 in
  dict_keys Example.record_AWS = sentinel2_columns /\
  exists scenes scene_list scene props text dt,
    (query_stac Example.Client_open Example.Client_search Example.get_all_items_AWS
       Example.settings_AWS (date_start Example.kw) (date_end Example.kw)
       (level_collection Example.settings_AWS L2A) (bounding_box Example.kw)
       Example.start).1 = Ok scenes /\
    py_iter h scenes = Ok scene_list /\
    scene ∈ scene_list /\
    getitem h scene "properties" = Ok props /\
    (forall keys, tile_id (Sentinel2 (STAC_BACKEND Example.settings_AWS)) = TileNames keys ->
       exists vals, comprehension (getitem h props) keys = Ok vals /\
         dict_get "tile_id" Example.record_AWS
           = Some (VStr (String.concat "" (py_str Example.builtin_str h <$> vals)))) /\
    getitem h props (sensing_time (Sentinel2 (STAC_BACKEND Example.settings_AWS)))
      = Ok (VStr text) /\
    Example.strptime (split_T_head text) "%Y-%m-%d" = Ok dt /\
    dict_get "sensing_date" Example.record_AWS = Some (VDate (dt_date dt)).
Proof.
  apply (sentinel2_uniform_schema Example.builtin_str Example.strptime Example.Client_open
           Example.Client_search Example.get_all_items_AWS Example.settings_AWS (NInt 80)
           L2A Example.kw Example.start [Example.record_AWS] Example.record_AWS).
  - vm_compute. reflexivity.
  - left.
Defined.

(** The three scenes of the example catalog give three rows, each the
    properties of its scene with the assets added. *)
Lemma sentinel1_rtc_rows_witness :
  (sentinel1_rtc Example.Client_open Example.Client_search Example.get_all_items
     Example.settings_MSPC Example.kw Example.start).1
  = Ok (view_row <$> Example.views) /\
  length (view_row <$> Example.views) = 3%nat /\
  Forall (fun v =>
            view_row v = dict_set "assets" (sv_assets v) (sv_props v) /\
            dict_get "assets" (view_row v) = Some (sv_assets v) /\
            forall k, k <> "assets" -> dict_get k (view_row v) = dict_get k (sv_props v))
         Example.views.
Proof.
  apply (sentinel1_rtc_rows Example.Client_open Example.Client_search
           Example.get_all_items Example.settings_MSPC Example.kw Example.start
           Example.items Example.features
           [VRef 1%positive; VRef 4%positive; VRef 7%positive] Example.views).
  - intros [H|[H|H]]; [discriminate H | apply H; reflexivity | discriminate H].
  - repeat split.
  - reflexivity.
  - reflexivity.
  - repeat constructor.
  - split.
    + apply (bool_decide_unpack _). vm_compute. exact I.
    + apply (bool_decide_unpack _). vm_compute. exact I.
Defined.

(** ** The YAML form of a mapper configuration *)

Lemma load_dump_geometry g : Mapper.load_geometry (Mapper.dump_geometry g) = Some g.
Proof.
  unfold Mapper.load_geometry, Mapper.dump_geometry. cbn.
  rewrite mapM_fmap_Some; [destruct g; reflexivity|].
  intros [x y]. reflexivity.
Qed.

Lemma load_dump_feature f : Mapper.load_feature (Mapper.dump_feature f) = Some f.
Proof.
  unfold Mapper.load_feature, Mapper.dump_feature. cbn -[Mapper.load_geometry Mapper.dump_geometry].
  rewrite load_dump_geometry. cbn.
  rewrite mapM_fmap_Some; [destruct f; reflexivity|].
  intros [k v]. reflexivity.
Qed.

Lemma from_dict_to_dict c : Mapper.from_dict (Mapper.to_dict c) = Some c.
Proof.
  unfold Mapper.from_dict, Mapper.to_dict. cbn -[Mapper.load_feature Mapper.dump_feature].
  rewrite load_dump_feature. cbn.
  rewrite mapM_fmap_Some; [destruct c; reflexivity|].
  intros [e o v]. reflexivity.
Qed.

(** C6. Writing a mapper configuration with [to_yaml] and reading the file
    back with [from_yaml] yields a configuration with the same collection,
    the same feature name, geometry, EPSG code and attributes, the same
    [time_start] and [time_end], and the same filters, entity by entity and
    expression by expression, in the same order. *)
Theorem mapper_configs_yaml_round_trip (c : Mapper.MapperConfigs) fpath (fs : Mapper.files) :
  exists c',
    Mapper.from_yaml fpath (Mapper.to_yaml c fpath fs) = Some c' /\
    Mapper.collection c' = Mapper.collection c /\
    Mapper.name (Mapper.feature c') = Mapper.name (Mapper.feature c) /\
    Mapper.geometry (Mapper.feature c') = Mapper.geometry (Mapper.feature c) /\
    Mapper.epsg (Mapper.feature c') = Mapper.epsg (Mapper.feature c) /\
    Mapper.attributes (Mapper.feature c') = Mapper.attributes (Mapper.feature c) /\
    Mapper.time_start c' = Mapper.time_start c /\
    Mapper.time_end c' = Mapper.time_end c /\
    Mapper.entity <$> Mapper.metadata_filters c'
      = Mapper.entity <$> Mapper.metadata_filters c /\
    Mapper.expression <$> Mapper.metadata_filters c'
      = Mapper.expression <$> Mapper.metadata_filters c.
Proof.
  exists c. split; [|repeat split].
  unfold Mapper.from_yaml, Mapper.to_yaml, Mapper.files in *. rewrite lookup_insert_eq. cbn.
  apply from_dict_to_dict.
Qed.

(** The configuration of the test comes back from its file, filters and all. *)
Example test_mapper_configs :
  Mapper.from_yaml "test.yml" (Mapper.to_yaml Mapper.test_configs "test.yml" ∅)
    = Some Mapper.test_configs /\
  Mapper.expression <$> Mapper.metadata_filters Mapper.test_configs
    = ["cloudy_pixel_percentage < 30"; "snow_ice_percentage < 10"].
Proof. split; reflexivity. Qed.

(** The loop of [sentinel1_rtc] writes into the properties object itself:
    were two scenes to share that object, both rows would show the assets of
    the later scene.  Scenes decoded from a reply of the catalog share
    nothing. *)
Example sentinel1_rtc_shared_properties :
  let row := dict_set "assets" (VRef 6%positive)
               (Example.properties "G1" "2022-05-03T10:26:01.024000Z" (Example.int 0)) in
  (sentinel1_rtc Example.Client_open Example.Client_search Example.get_all_items_shared
     Example.settings_MSPC Example.kw Example.start).1 = Ok [row; row].
Proof. reflexivity. Qed.

(** ** Further properties of the client *)

Section FurtherProperties.

Variable builtin_str : gmap loc pydict -> pyval -> string.
Variable strptime : string -> string -> result pydatetime.
Variable Client_open : string -> option exn.
Variable Client_search : SearchParams -> option exn.
Variable get_all_items : SearchParams -> result ItemCollection.
Variable Settings : settings.

Local Abbreviation query := (query_stac Client_open Client_search get_all_items Settings).
Local Abbreviation s1 := (sentinel1_rtc Client_open Client_search get_all_items Settings).
Local Abbreviation s2 :=
  (sentinel2 builtin_str strptime Client_open Client_search get_all_items Settings).
Local Abbreviation meta_dict_of := (scene_meta_dict builtin_str strptime Settings).
Local Abbreviation s2_loop := (sentinel2_loop builtin_str strptime Settings).
Local Abbreviation script :=
  (main builtin_str strptime Client_open Client_search get_all_items Settings).
Local Abbreviation url := (URL (STAC_BACKEND Settings)).
Local Abbreviation names := (Sentinel2 (STAC_BACKEND Settings)).
Local Abbreviation answers := (library_answers Client_open Client_search get_all_items url).

(** X1. [query_stac] returns nothing of its own making: whenever it returns
    a value, the library has answered all three calls with an item
    collection, and the value is what that collection's dictionary form
    holds under ["features"]. *)
Theorem query_stac_value_is_features date_start date_end collection bounding_box st scenes :
  (query date_start date_end collection bounding_box st).1 = Ok scenes ->
  exists items,
    answers (stac_search Settings date_start date_end collection bounding_box) items /\
    dict_get "features" (ic_dict items) = Some scenes.
Proof.
  rewrite query_stac_run. cbv zeta. unfold library_answers.
  destruct (Client_open url) as [e|]; cbn [fst]; [discriminate|].
  destruct (Client_search _) as [e|]; cbn [fst]; [discriminate|].
  destruct (get_all_items _) as [items|e]; cbn [fst]; [|discriminate].
  unfold dict_getitem. destruct (dict_get "features" (ic_dict items)) as [v|] eqn:Hv;
    [|discriminate].
  intros [= <-]. exists items. repeat split. exact Hv.
Qed.

(** X2. [query_stac] stops at the first call that fails: when the
    connection cannot be opened, the only call made is the opening of the
    catalog (no search is sent, no items are fetched); when the search
    fails, no items are fetched. *)
Theorem query_stac_stops_at_failure date_start date_end collection bounding_box st e :
  Client_open url = Some e \/
  (Client_open url = None /\
   Client_search (stac_search Settings date_start date_end collection bounding_box)
     = Some e) ->
  let out := query date_start date_end collection bounding_box st in
  out.1 = Raise e /\
  exists new,
    trace out.2 = trace st ++ new /\
    fetches new = [] /\
    (Client_open url = Some e -> new = [EvOpen url]) /\
    (Client_open url = None ->
     new = [EvOpen url;
            EvSearch (stac_search Settings date_start date_end collection bounding_box)]).
Proof.
  intros H out. subst out. rewrite query_stac_run. cbv zeta.
  destruct H as [Hopen|[Hopen Hsearch]].
  - rewrite Hopen. cbn. split; [reflexivity|]. eexists. split; [reflexivity|].
    repeat split. discriminate.
  - rewrite Hopen, Hsearch. cbn. split; [reflexivity|]. eexists. split; [reflexivity|].
    repeat split. discriminate.
Qed.

(** X3. When the dictionary form of the item collection has no
    ["features"] entry, [query_stac] raises [KeyError('features')]; by then
    all three library calls have been made and the collection's objects are
    in the store. *)
Theorem query_stac_missing_features date_start date_end collection bounding_box st items :
  answers (stac_search Settings date_start date_end collection bounding_box) items ->
  dict_get "features" (ic_dict items) = None ->
  let out := query date_start date_end collection bounding_box st in
  out.1 = Raise (Exn KeyError "features") /\
  trace out.2
    = trace st ++
      [EvOpen url;
       EvSearch (stac_search Settings date_start date_end collection bounding_box);
       EvGetAllItems (stac_search Settings date_start date_end collection bounding_box)] /\
  store out.2 = ic_store items ∪ store st.
Proof.
  intros Hans Hfeat out. subst out.
  rewrite (query_stac_answers _ _ _ _ _ _ _ _ _ _ Hans).
  unfold dict_getitem. rewrite Hfeat. repeat split.
Qed.

(** X4. [sentinel2] overrides any collection among its keyword arguments:
    its outcome does not depend on it, and every search it sends is for the
    collection of the processing level, [S2L1C] or [S2L2A] of the backend. *)
Theorem sentinel2_sets_collection thr lvl kw st :
  (forall c, s2 thr lvl (kwargs_update_collection c kw) st = s2 thr lvl kw st) /\
  exists new,
    trace (s2 thr lvl kw st).2 = trace st ++ new /\
    Forall (fun p => collections p =
                       match lvl with
                       | L1C => S2L1C (STAC_BACKEND Settings)
                       | L2A => S2L2A (STAC_BACKEND Settings)
                       end)
           (searches new).
Proof.
  split; [intros c; reflexivity|].
  rewrite sentinel2_run. cbv zeta. rewrite query_stac_run. cbv zeta.
  destruct (Client_open url) as [e|]; cbn [fst snd trace].
  { eexists. split; [reflexivity|]. constructor. }
  destruct (Client_search _) as [e|]; cbn [fst snd trace].
  { eexists. split; [reflexivity|]. cbn. repeat constructor; destruct lvl; reflexivity. }
  destruct (get_all_items _) as [items|e]; cbn [fst snd trace].
  - destruct (dict_getitem (ic_dict items) "features"); cbn [fst snd trace];
      (eexists; split; [reflexivity|]; cbn; repeat constructor; destruct lvl; reflexivity).
  - eexists. split; [reflexivity|]. cbn. repeat constructor; destruct lvl; reflexivity.
Qed.

(** The loop of [sentinel1_rtc] makes no call to the library. *)
Lemma sentinel1_rtc_loop_trace scenes : forall acc st,
  trace (sentinel1_rtc_loop scenes acc st).2 = trace st.
Proof.
  induction scenes as [|scene rest IH]; intros acc st; [reflexivity|].
  cbn [sentinel1_rtc_loop]. unfold mbind, M_bind, get_store, lift.
  destruct (getitem (store st) scene "properties") as [md|e]; [|reflexivity].
  destruct (getitem (store st) scene "assets") as [assets|e]; [|reflexivity].
  destruct md; try reflexivity. unfold setitem, mbind, M_bind, get_store, put_store, raise.
  destruct (store st !! l); [|reflexivity]. rewrite IH. reflexivity.
Qed.

(** With its configuration in place, the library calls of [sentinel1_rtc]
    are those of its one query. *)
Lemma sentinel1_rtc_trace kw st :
  ~ config_missing Settings ->
  trace (s1 kw st).2
  = trace (query (date_start kw) (date_end kw) "sentinel-1-rtc" (bounding_box kw) st).2.
Proof.
  intros Hcfg. rewrite (sentinel1_rtc_config_ok _ _ _ _ kw Hcfg). unfold call_query_stac.
  cbn [collection kwargs_update_collection date_start date_end bounding_box].
  unfold mbind at 1. unfold M_bind at 1.
  destruct (query _ _ _ _ st) as [[scenes|e] st1]; cbn [snd]; [|reflexivity].
  unfold mbind at 1. unfold M_bind at 1. cbn [get_store].
  unfold mbind at 1. unfold M_bind at 1. unfold lift at 1.
  destruct (py_iter (store st1) scenes) as [l|e]; [|reflexivity].
  unfold mbind at 1. unfold M_bind at 1.
  pose proof (sentinel1_rtc_loop_trace l [] st1) as Htr.
  destruct (sentinel1_rtc_loop l [] st1) as [[ml|e] st2]; cbn [snd] in *; [|exact Htr].
  unfold pd_DataFrame, mbind, M_bind, get_store, lift. cbn. exact Htr.
Qed.

(** X5. [sentinel1_rtc] overrides any collection among its keyword
    arguments: its outcome does not depend on it, and every search it sends
    is for the collection [sentinel-1-rtc]. *)
Theorem sentinel1_rtc_sets_collection kw st :
  (forall c, s1 (kwargs_update_collection c kw) st = s1 kw st) /\
  exists new,
    trace (s1 kw st).2 = trace st ++ new /\
    Forall (fun p => collections p = "sentinel-1-rtc") (searches new).
Proof.
  split; [intros c; reflexivity|].
  destruct (USE_STAC Settings) eqn:Huse; cycle 1.
  { exists []. unfold sentinel1_rtc. rewrite Huse. cbn. rewrite app_nil_r.
    split; [reflexivity | constructor]. }
  destruct (decide (provider (STAC_BACKEND Settings) = MSPC)) as [Hp|Hp]; cycle 1.
  { exists []. unfold sentinel1_rtc. rewrite Huse, (bool_decide_eq_false_2 _ Hp). cbn.
    rewrite app_nil_r. split; [reflexivity | constructor]. }
  destruct (String.eqb (PC_SDK_SUBSCRIPTION_KEY Settings) "") eqn:Hkey.
  { exists []. unfold sentinel1_rtc. rewrite Huse, (bool_decide_eq_true_2 _ Hp), Hkey. cbn.
    rewrite app_nil_r. split; [reflexivity | constructor]. }
  rewrite sentinel1_rtc_trace; cycle 1.
  { intros [H|[H|H]]; [congruence | contradiction |].
    rewrite H in Hkey. discriminate. }
  rewrite query_stac_run. cbv zeta.
  destruct (Client_open url) as [e|]; cbn [snd trace].
  { eexists. split; [reflexivity|]. constructor. }
  destruct (Client_search _) as [e|]; cbn [snd trace].
  { eexists. split; [reflexivity|]. cbn. repeat constructor. }
  destruct (get_all_items _) as [items|e]; cbn [snd trace];
    (eexists; split; [reflexivity|]; cbn; repeat constructor).
Qed.

Lemma float_le_trans x y z :
  float_le x y = true -> float_le y z = true -> float_le x z = true.
Proof.
  destruct x as [|[]|a], y as [|[]|b], z as [|[]|c]; cbn; try congruence.
  rewrite !Qle_bool_iff. apply Qle_trans.
Qed.

Lemma num_le_trans x y z : num_le x y = true -> num_le y z = true -> num_le x z = true.
Proof. unfold num_le. apply float_le_trans. Qed.

Lemma float_le_nan_l y : float_le FNan y = false.
Proof. reflexivity. Qed.

Lemma float_le_nan_r x : float_le x FNan = false.
Proof. destruct x as [|[]|a]; reflexivity. Qed.

Lemma is_nan_num_val n : is_nan n = true -> num_val n = FNan.
Proof. destruct n as [z|[| |]]; cbn; congruence. Qed.

(** The loop of [sentinel2] over two lists of scenes, one after the other. *)
Lemma sentinel2_loop_app h thr l1 l2 : forall acc,
  s2_loop h thr (l1 ++ l2) acc = s2_loop h thr l1 acc ≫= s2_loop h thr l2.
Proof.
  induction l1 as [|scene l1 IH]; intros acc; [reflexivity|].
  cbn [app sentinel2_loop].
  destruct (meta_dict_of h scene) as [md|e]; [|reflexivity]. cbn.
  destruct (dict_getitem md "cloudy_pixel_percentage") as [c|e]; [|reflexivity]. cbn.
  destruct (py_le c thr) as [keep|e]; [|reflexivity]. cbn. apply IH.
Qed.

(** [sentinel2] when the library answers. *)
Lemma sentinel2_answers thr lvl kw st items features :
  answers (stac_search Settings (date_start kw) (date_end kw)
             (level_collection Settings lvl) (bounding_box kw)) items ->
  dict_get "features" (ic_dict items) = Some features ->
  (s2 thr lvl kw st).1
  = (py_iter (ic_store items ∪ store st) features
       ≫= fun l => s2_loop (ic_store items ∪ store st) thr l []) /\
  store (s2 thr lvl kw st).2 = ic_store items ∪ store st.
Proof.
  intros Hans Hfeat. rewrite sentinel2_run. cbv zeta.
  rewrite (query_stac_answers _ _ _ _ _ _ _ _ _ _ Hans).
  unfold dict_getitem. rewrite Hfeat. cbn [fst snd store]. split; reflexivity.
Qed.

Lemma filter_rows_sublist (p q : pynum * pydict -> bool) infos :
  (forall i, p i = true -> q i = true) ->
  (snd <$> List.filter p infos) `sublist_of` (snd <$> List.filter q infos).
Proof.
  intros Hpq. induction infos as [|i infos IH]; cbn; [constructor|].
  destruct (p i) eqn:Hp.
  - rewrite (Hpq i Hp). cbn. apply sublist_skip, IH.
  - destruct (q i); cbn; [apply sublist_cons, IH | exact IH].
Qed.

(** X6. Raising the threshold never loses a scene: for thresholds
    [thr1 <= thr2] and the same answer of the catalog, the rows [sentinel2]
    returns for [thr1] are, in their order, among the rows it returns for
    [thr2]. *)
Theorem sentinel2_threshold_monotone thr1 thr2 lvl kw st items features scene_list
    (infos : list (pynum * pydict)) :
  answers (stac_search Settings (date_start kw) (date_end kw)
             (level_collection Settings lvl) (bounding_box kw)) items ->
  dict_get "features" (ic_dict items) = Some features ->
  py_iter (ic_store items ∪ store st) features = Ok scene_list ->
  Forall2 (fun scene i =>
             meta_dict_of (ic_store items ∪ store st) scene = Ok i.2 /\
             exists c, scene_cloud_cover Settings (ic_store items ∪ store st) scene = Ok c /\
                       as_number c = Some i.1)
          scene_list infos ->
  num_le thr1 thr2 = true ->
  exists rows1 rows2,
    (s2 thr1 lvl kw st).1 = Ok rows1 /\
    (s2 thr2 lvl kw st).1 = Ok rows2 /\
    rows1 `sublist_of` rows2.
Proof.
  intros Hans Hfeat Hiter Hinfos Hle.
  exists (snd <$> List.filter (fun i => num_le i.1 thr1) infos),
         (snd <$> List.filter (fun i => num_le i.1 thr2) infos).
  split; [|split].
  - rewrite (proj1 (sentinel2_answers thr1 lvl kw st items features Hans Hfeat)), Hiter.
    cbn. rewrite (sentinel2_loop_filter _ _ _ _ _ _ _ _ Hinfos). reflexivity.
  - rewrite (proj1 (sentinel2_answers thr2 lvl kw st items features Hans Hfeat)), Hiter.
    cbn. rewrite (sentinel2_loop_filter _ _ _ _ _ _ _ _ Hinfos). reflexivity.
  - apply filter_rows_sublist. intros i Hi. eapply num_le_trans; eassumption.
Qed.

(** X7. One scene whose record cannot be built fails the whole query: the
    exception of the first such scene is raised, whatever its cloud cover
    would have been and however many sound scenes come before or after it;
    no frame is returned. *)
Theorem sentinel2_fails_on_bad_scene thr lvl kw st items features good bad rest
    (infos : list (pynum * pydict)) e :
  answers (stac_search Settings (date_start kw) (date_end kw)
             (level_collection Settings lvl) (bounding_box kw)) items ->
  dict_get "features" (ic_dict items) = Some features ->
  py_iter (ic_store items ∪ store st) features = Ok (good ++ bad :: rest) ->
  Forall2 (fun scene i =>
             meta_dict_of (ic_store items ∪ store st) scene = Ok i.2 /\
             exists c, scene_cloud_cover Settings (ic_store items ∪ store st) scene = Ok c /\
                       as_number c = Some i.1)
          good infos ->
  meta_dict_of (ic_store items ∪ store st) bad = Raise e ->
  (s2 thr lvl kw st).1 = Raise e.
Proof.
  intros Hans Hfeat Hiter Hgood Hbad.
  rewrite (proj1 (sentinel2_answers thr lvl kw st items features Hans Hfeat)), Hiter.
  cbn. rewrite sentinel2_loop_app, (sentinel2_loop_filter _ _ _ _ _ _ _ _ Hgood).
  cbn. rewrite Hbad. reflexivity.
Qed.

(** X8. A scene whose cloudy-pixel percentage is not a number (a missing
    value [None], a text) is not dropped: the comparison with the threshold
    raises a [TypeError] and the whole query fails. *)
Theorem sentinel2_fails_on_non_numeric_cloud_cover thr lvl kw st items features good bad
    rest (infos : list (pynum * pydict)) md c :
  answers (stac_search Settings (date_start kw) (date_end kw)
             (level_collection Settings lvl) (bounding_box kw)) items ->
  dict_get "features" (ic_dict items) = Some features ->
  py_iter (ic_store items ∪ store st) features = Ok (good ++ bad :: rest) ->
  Forall2 (fun scene i =>
             meta_dict_of (ic_store items ∪ store st) scene = Ok i.2 /\
             exists c, scene_cloud_cover Settings (ic_store items ∪ store st) scene = Ok c /\
                       as_number c = Some i.1)
          good infos ->
  meta_dict_of (ic_store items ∪ store st) bad = Ok md ->
  scene_cloud_cover Settings (ic_store items ∪ store st) bad = Ok c ->
  as_number c = None ->
  exists msg, (s2 thr lvl kw st).1 = Raise (Exn TypeError msg).
Proof.
  intros Hans Hfeat Hiter Hgood Hmd Hc Hnum.
  rewrite (proj1 (sentinel2_answers thr lvl kw st items features Hans Hfeat)), Hiter.
  cbn. rewrite sentinel2_loop_app, (sentinel2_loop_filter _ _ _ _ _ _ _ _ Hgood).
  cbn. rewrite Hmd. cbn.
  destruct (scene_meta_dict_cloud _ _ _ _ _ _ Hmd) as [Heq _].
  rewrite <- Heq, Hc. cbn. unfold py_le. rewrite Hnum. cbn. eexists. reflexivity.
Qed.

(** X9. Not-a-number keeps nothing: when the threshold is not-a-number, or
    when the cloudy-pixel percentage of every scene is, [sentinel2] returns
    the empty frame. *)
Theorem sentinel2_nan_keeps_nothing thr lvl kw st items features scene_list
    (infos : list (pynum * pydict)) :
  answers (stac_search Settings (date_start kw) (date_end kw)
             (level_collection Settings lvl) (bounding_box kw)) items ->
  dict_get "features" (ic_dict items) = Some features ->
  py_iter (ic_store items ∪ store st) features = Ok scene_list ->
  Forall2 (fun scene i =>
             meta_dict_of (ic_store items ∪ store st) scene = Ok i.2 /\
             exists c, scene_cloud_cover Settings (ic_store items ∪ store st) scene = Ok c /\
                       as_number c = Some i.1)
          scene_list infos ->
  is_nan thr = true \/ Forall (fun i => is_nan i.1 = true) infos ->
  (s2 thr lvl kw st).1 = Ok [].
Proof.
  intros Hans Hfeat Hiter Hinfos Hnan.
  rewrite (proj1 (sentinel2_answers thr lvl kw st items features Hans Hfeat)), Hiter.
  cbn. rewrite (sentinel2_loop_filter _ _ _ _ _ _ _ _ Hinfos). cbn. f_equal.
  assert (Hnone : forall i, i ∈ infos -> num_le i.1 thr = false).
  { intros i Hi. unfold num_le. destruct Hnan as [Hthr|Hall].
    - rewrite (is_nan_num_val _ Hthr). apply float_le_nan_r.
    - rewrite Forall_forall in Hall. rewrite (is_nan_num_val _ (Hall i Hi)). reflexivity. }
  clear -Hnone. induction infos as [|i infos IH]; [reflexivity|]. cbn.
  rewrite (Hnone i) by left. apply IH. intros j Hj. apply Hnone. right. exact Hj.
Qed.

(** Every entry of the record of a scene, traced to where it is read. *)
Lemma scene_meta_dict_entries h scene md :
  meta_dict_of h scene = Ok md ->
  exists props text time,
    getitem h scene "properties" = Ok props /\
    try_except_KeyError (getitem h scene (product_uri names))
      (getitem h props (product_uri names)) = dict_getitem md "product_uri" /\
    try_except_KeyError (getitem h props (scene_id names))
      (getitem h scene (scene_id names)) = dict_getitem md "scene_id" /\
    getitem h props (platform names) = dict_getitem md "spacecraft_name" /\
    (forall key, tile_id names = TileName key ->
       getitem h props key = dict_getitem md "tile_id") /\
    getitem h props (cloud_cover names) = dict_getitem md "cloudy_pixel_percentage" /\
    getitem h props (epsg names) = dict_getitem md "epsg" /\
    getitem h props (sensing_time names) = Ok (VStr text) /\
    strptime text (sensing_time_fmt names) = Ok time /\
    dict_get "sensing_time" md = Some (VDatetime time) /\
    getitem h props (sun_azimuth_angle names) = dict_getitem md "sun_azimuth_angle" /\
    getitem h props (sun_zenith_angle names) = dict_getitem md "sun_zenith_angle" /\
    getitem h scene "assets" = dict_getitem md "assets".
Proof.
  unfold scene_meta_dict. intros H.
  apply result_bind_Ok in H as (props & Hprops & H); cbv beta in H.
  apply result_bind_Ok in H as (tile & Htile & H); cbv beta in H.
  apply result_bind_Ok in H as (uri & Huri & H); cbv beta in H.
  apply result_bind_Ok in H as (sid & Hsid & H); cbv beta in H.
  apply result_bind_Ok in H as (spacecraft & Hsp & H); cbv beta in H.
  apply result_bind_Ok in H as (t1 & Ht1 & H); cbv beta in H.
  apply result_bind_Ok in H as (text' & Htext & H); cbv beta in H.
  apply result_bind_Ok in H as (dt & Hdt & H); cbv beta in H.
  apply result_bind_Ok in H as (cloud & Hcloud & H); cbv beta in H.
  apply result_bind_Ok in H as (code & Hcode & H); cbv beta in H.
  apply result_bind_Ok in H as (t2 & Ht2 & H); cbv beta in H.
  apply result_bind_Ok in H as (time & Htime & H); cbv beta in H.
  apply result_bind_Ok in H as (azimuth & Haz & H); cbv beta in H.
  apply result_bind_Ok in H as (zenith & Hzen & H); cbv beta in H.
  apply result_bind_Ok in H as (assets & Hassets & H); cbv beta in H.
  cbv zeta in H. injection H as <-.
  rewrite Ht1 in Ht2. injection Ht2 as <-.
  destruct t1 as [| | |text| | | |]; try discriminate Htext. cbn in Htime.
  exists props, text, time.
  split; [exact Hprops|]. split; [rewrite Huri; reflexivity|].
  split; [rewrite Hsid; reflexivity|]. split; [rewrite Hsp; reflexivity|].
  split.
  { intros key Hkey. rewrite Hkey in Htile. rewrite Htile. reflexivity. }
  split; [rewrite Hcloud; reflexivity|]. split; [rewrite Hcode; reflexivity|].
  split; [exact Ht1|]. split; [exact Htime|]. split; [reflexivity|].
  split; [rewrite Haz; reflexivity|]. split; [rewrite Hzen; reflexivity|].
  rewrite Hassets. reflexivity.
Qed.

(** Every row of the frame [sentinel2] returns is the record of a scene, in
    the store the query left. *)
Lemma sentinel2_row_scene thr lvl kw st rows row :
  (s2 thr lvl kw st).1 = Ok rows ->
  row ∈ rows ->
  exists scene, meta_dict_of (store (s2 thr lvl kw st).2) scene = Ok row.
Proof.
  rewrite sentinel2_run. cbv zeta.
  destruct (query _ _ _ _ st) as [[scenes|e] st']; cbn [fst snd]; [|discriminate].
  intros Hrows Hrow. apply result_bind_Ok in Hrows as (scene_list & Hiter & Hloop).
  cbv beta in Hloop.
  destruct (sentinel2_loop_rows _ _ _ _ _ _ _ _ Hloop row Hrow) as [Hnil|(scene & _ & Hmd)].
  { apply elem_of_nil in Hnil. contradiction. }
  exists scene. exact Hmd.
Qed.

(** X10. Where the two identifiers of a row come from.  [product_uri] is
    read from the scene itself when the scene has the provider's key, and
    from its properties only when the scene has not; [scene_id] is read the
    other way round: from the properties when they have the key, from the
    scene itself only when they have not. *)
Theorem sentinel2_identifier_precedence thr lvl kw st rows row :
  (s2 thr lvl kw st).1 = Ok rows ->
  row ∈ rows ->
  let h := store (s2 thr lvl kw st).2 in
  exists scene props,
    meta_dict_of h scene = Ok row /\
    getitem h scene "properties" = Ok props /\
    (forall u, getitem h scene (product_uri names) = Ok u ->
       dict_get "product_uri" row = Some u) /\
    (forall k, getitem h scene (product_uri names) = Raise (Exn KeyError k) ->
       getitem h props (product_uri names) = dict_getitem row "product_uri") /\
    (forall i, getitem h props (scene_id names) = Ok i ->
       dict_get "scene_id" row = Some i) /\
    (forall k, getitem h props (scene_id names) = Raise (Exn KeyError k) ->
       getitem h scene (scene_id names) = dict_getitem row "scene_id").
Proof.
  intros Hrows Hrow h. subst h.
  destruct (sentinel2_row_scene _ _ _ _ _ _ Hrows Hrow) as (scene & Hmd).
  destruct (scene_meta_dict_entries _ _ _ Hmd)
    as (props & text & time & Hprops & Huri & Hsid & _).
  exists scene, props. split; [exact Hmd|]. split; [exact Hprops|].
  unfold dict_getitem in *. repeat split.
  - intros u Hu. rewrite Hu in Huri. cbn in Huri.
    destruct (dict_get "product_uri" row); congruence.
  - intros k Hk. rewrite Hk in Huri. exact Huri.
  - intros i Hi. rewrite Hi in Hsid. cbn in Hsid.
    destruct (dict_get "scene_id" row); congruence.
  - intros k Hk. rewrite Hk in Hsid. exact Hsid.
Qed.

(** X11. The other entries of a row are the properties the provider names,
    taken as they are: [spacecraft_name], [cloudy_pixel_percentage], [epsg]
    and the two sun angles are the values of the platform, cloud-cover, EPSG
    and sun-angle properties; [tile_id], when the provider names the tile by
    one property, is the value of that property (not turned into text);
    [sensing_time] is the sensing-time text parsed with the provider's
    format; and [assets] is the [assets] entry of the scene. *)
Theorem sentinel2_record_values thr lvl kw st rows row :
  (s2 thr lvl kw st).1 = Ok rows ->
  row ∈ rows ->
  let h := store (s2 thr lvl kw st).2 in
  exists scene props text time,
    getitem h scene "properties" = Ok props /\
    dict_getitem row "spacecraft_name" = getitem h props (platform names) /\
    dict_getitem row "cloudy_pixel_percentage" = getitem h props (cloud_cover names) /\
    dict_getitem row "epsg" = getitem h props (epsg names) /\
    dict_getitem row "sun_azimuth_angle" = getitem h props (sun_azimuth_angle names) /\
    dict_getitem row "sun_zenith_angle" = getitem h props (sun_zenith_angle names) /\
    (forall key, tile_id names = TileName key ->
       dict_getitem row "tile_id" = getitem h props key) /\
    getitem h props (sensing_time names) = Ok (VStr text) /\
    strptime text (sensing_time_fmt names) = Ok time /\
    dict_get "sensing_time" row = Some (VDatetime time) /\
    dict_getitem row "assets" = getitem h scene "assets".
Proof.
  intros Hrows Hrow h. subst h.
  destruct (sentinel2_row_scene _ _ _ _ _ _ Hrows Hrow) as (scene & Hmd).
  destruct (scene_meta_dict_entries _ _ _ Hmd)
    as (props & text & time & Hprops & _ & _ & Hsp & Htile & Hcloud & Hcode & Htext
        & Htime & Hst & Haz & Hzen & Hassets).
  exists scene, props, text, time.
  repeat split; try assumption; try (symmetry; assumption).
  intros key Hkey. symmetry. apply Htile, Hkey.
Qed.

(** [sentinel1_rtc] when its configuration is in place and the library
    answers: the loop and the frame, run in the store the query left. *)
Lemma sentinel1_rtc_answers kw st items features scene_list :
  ~ config_missing Settings ->
  answers (stac_search Settings (date_start kw) (date_end kw) "sentinel-1-rtc"
             (bounding_box kw)) items ->
  dict_get "features" (ic_dict items) = Some features ->
  py_iter (ic_store items ∪ store st) features = Ok scene_list ->
  s1 kw st
  = (sentinel1_rtc_loop scene_list [] ≫= pd_DataFrame)
      (State (trace st ++
              [EvOpen url;
               EvSearch (stac_search Settings (date_start kw) (date_end kw)
                           "sentinel-1-rtc" (bounding_box kw));
               EvGetAllItems (stac_search Settings (date_start kw) (date_end kw)
                                "sentinel-1-rtc" (bounding_box kw))])
             (ic_store items ∪ store st)).
Proof.
  intros Hcfg Hans Hfeat Hiter.
  rewrite (sentinel1_rtc_config_ok _ _ _ _ kw Hcfg). unfold call_query_stac.
  cbn [collection kwargs_update_collection date_start date_end bounding_box].
  unfold mbind at 1. unfold M_bind at 1.
  rewrite (query_stac_answers _ _ _ _ _ _ _ _ _ _ Hans). unfold dict_getitem. rewrite Hfeat.
  unfold mbind at 1. unfold M_bind at 1. cbn [get_store store].
  unfold mbind at 1. unfold M_bind at 1. unfold lift at 1. rewrite Hiter. reflexivity.
Qed.

(** The loop of [sentinel1_rtc] over two lists of scenes, one after the other. *)
Lemma sentinel1_rtc_loop_app l1 l2 : forall acc st,
  sentinel1_rtc_loop (l1 ++ l2) acc st
  = (sentinel1_rtc_loop l1 acc ≫= sentinel1_rtc_loop l2) st.
Proof.
  induction l1 as [|scene l1 IH]; intros acc st; [reflexivity|].
  cbn [app sentinel1_rtc_loop]. unfold mbind, M_bind, get_store, lift.
  destruct (getitem (store st) scene "properties") as [md|e]; [|reflexivity].
  destruct (getitem (store st) scene "assets") as [assets|e]; [|reflexivity].
  destruct (setitem md "assets" assets st) as [[[]|e] st']; [|reflexivity].
  rewrite IH. reflexivity.
Qed.

(** A successful call of [sentinel1_rtc] in full: its frame and the state
    it ends in. *)
Lemma sentinel1_rtc_run_ok kw st items features scene_list views :
  ~ config_missing Settings ->
  answers (stac_search Settings (date_start kw) (date_end kw) "sentinel-1-rtc"
             (bounding_box kw)) items ->
  dict_get "features" (ic_dict items) = Some features ->
  py_iter (ic_store items ∪ store st) features = Ok scene_list ->
  Forall2 (fun scene v => view_scene (ic_store items ∪ store st) scene = Some v)
          scene_list views ->
  separate views ->
  exists tr h',
    s1 kw st = (Ok (view_row <$> views), State tr h') /\
    (forall v, v ∈ views -> h' !! sv_properties v = Some (view_row v)) /\
    (forall l, l ∉ (sv_properties <$> views) -> h' !! l = (ic_store items ∪ store st) !! l).
Proof.
  intros Hcfg Hans Hfeat Hiter Hviews Hsep.
  rewrite (sentinel1_rtc_answers kw st items features scene_list Hcfg Hans Hfeat Hiter).
  unfold mbind at 1. unfold M_bind at 1.
  match goal with |- context [sentinel1_rtc_loop scene_list [] ?st1] =>
    destruct (sentinel1_rtc_loop_spec scene_list views [] st1 Hviews Hsep)
      as (h' & Hrun & Hrows & Hother); rewrite Hrun end.
  cbn [app]. unfold pd_DataFrame, mbind, M_bind, get_store, lift. cbn [store].
  rewrite (deref_rows h' views Hrows). eexists _, h'. split; [reflexivity|].
  split; [exact Hrows | exact Hother].
Qed.

(** X12. [sentinel1_rtc] changes the scenes it was given: after a
    successful call, the properties object of every scene holds the scene's
    assets under [assets] (whoever holds the scene sees it), and every other
    object of the store is as the query left it. *)
Theorem sentinel1_rtc_updates_properties kw st items features scene_list views :
  ~ config_missing Settings ->
  answers (stac_search Settings (date_start kw) (date_end kw) "sentinel-1-rtc"
             (bounding_box kw)) items ->
  dict_get "features" (ic_dict items) = Some features ->
  py_iter (ic_store items ∪ store st) features = Ok scene_list ->
  Forall2 (fun scene v => view_scene (ic_store items ∪ store st) scene = Some v)
          scene_list views ->
  separate views ->
  let h' := store (s1 kw st).2 in
  Forall (fun v =>
            h' !! sv_properties v
              = Some (dict_set "assets" (sv_assets v) (sv_props v)) /\
            getitem h' (VRef (sv_properties v)) "assets" = Ok (sv_assets v))
         views /\
  forall l, l ∉ (sv_properties <$> views) -> h' !! l = (ic_store items ∪ store st) !! l.
Proof.
  intros Hcfg Hans Hfeat Hiter Hviews Hsep h'. subst h'.
  destruct (sentinel1_rtc_run_ok kw st items features scene_list views
              Hcfg Hans Hfeat Hiter Hviews Hsep) as (tr & h' & -> & Hrows & Hother).
  cbn [snd store]. split.
  - apply Forall_forall. intros v Hv. split; [apply Hrows, Hv|].
    unfold getitem. rewrite (Hrows v Hv). unfold view_row. rewrite dict_get_set_eq.
    reflexivity.
  - exact Hother.
Qed.

(** X13. [sentinel1_rtc] does not undo what it wrote when it fails: if a
    scene cannot be read (it has no [properties], say), the call raises the
    exception and returns no frame, yet the properties objects of the
    scenes before it already hold their assets. *)
Theorem sentinel1_rtc_no_rollback kw st items features good bad rest views e :
  ~ config_missing Settings ->
  answers (stac_search Settings (date_start kw) (date_end kw) "sentinel-1-rtc"
             (bounding_box kw)) items ->
  dict_get "features" (ic_dict items) = Some features ->
  py_iter (ic_store items ∪ store st) features = Ok (good ++ bad :: rest) ->
  Forall2 (fun scene v => view_scene (ic_store items ∪ store st) scene = Some v)
          good views ->
  separate views ->
  getitem (ic_store items ∪ store st) bad "properties" = Raise e ->
  (forall l, bad = VRef l -> l ∉ (sv_properties <$> views)) ->
  (s1 kw st).1 = Raise e /\
  Forall (fun v =>
            store (s1 kw st).2 !! sv_properties v
              = Some (dict_set "assets" (sv_assets v) (sv_props v)))
         views.
Proof.
  intros Hcfg Hans Hfeat Hiter Hviews Hsep Hbad Hfresh.
  rewrite (sentinel1_rtc_answers kw st items features _ Hcfg Hans Hfeat Hiter).
  match goal with |- context [(_ ≫= pd_DataFrame) ?st1] =>
    destruct (sentinel1_rtc_loop_spec good views [] st1 Hviews Hsep)
      as (h' & Hrun & Hrows & Hother);
    assert (Heq : (sentinel1_rtc_loop (good ++ bad :: rest) [] ≫= pd_DataFrame) st1
                  = (Raise e, State (trace st1) h')) end.
  { cbn [store] in Hother.
    assert (Hbad' : getitem h' bad "properties" = Raise e).
    { rewrite <- Hbad. destruct bad; try reflexivity. cbn.
      rewrite (Hother l (Hfresh l eq_refl)). reflexivity. }
    unfold mbind at 1. unfold M_bind at 1. rewrite sentinel1_rtc_loop_app.
    unfold mbind at 1. unfold M_bind at 1. rewrite Hrun.
    cbn [sentinel1_rtc_loop]. unfold mbind, M_bind, get_store, lift. cbn [store].
    rewrite Hbad'. reflexivity. }
  rewrite Heq. cbn [fst snd store]. split; [reflexivity|].
  apply Forall_forall. intros v Hv. apply Hrows, Hv.
Qed.



(** A frame of records of [sentinel2] is empty only when it has no row. *)
Lemma sentinel2_frame_empty thr lvl kw st rows :
  (s2 thr lvl kw st).1 = Ok rows ->
  DataFrame_empty rows = match rows with [] => true | _ :: _ => false end.
Proof.
  intros Hrows. destruct rows as [|row rows]; [reflexivity|].
  destruct (sentinel2_row_scene _ _ _ _ _ _ Hrows (list_elem_of_here row rows))
    as (scene & Hmd).
  destruct (scene_meta_dict_cloud _ _ _ _ _ _ Hmd) as [_ Hkeys].
  destruct row; [discriminate Hkeys | reflexivity].
Qed.

(** X15. The script at the end of the module asserts that the Sentinel-2
    frame is empty: once both queries have returned, it ends without error
    only if [sentinel2] found no scene at or below 80 percent, and raises
    [AssertionError('no results found')] as soon as the frame has a row. *)
Theorem script_asserts_empty_frame bounding_box st df1 st1 rows :
  let kw := {| date_start := Date 2022 5 1; date_end := Date 2022 5 31;
               bounding_box := bounding_box; collection := None |} in
  s1 kw st = (Ok df1, st1) ->
  (s2 (NInt 80) L2A kw st1).1 = Ok rows ->
  (script bounding_box st).1
  = match rows with
    | [] => Ok tt
    | _ :: _ => Raise (Exn (OtherError "AssertionError") "no results found")
    end.
Proof.
  intros kw H1 H2. unfold main. fold kw.
  unfold mbind at 1. unfold M_bind at 1. rewrite H1.
  unfold mbind at 1. unfold M_bind at 1.
  pose proof (sentinel2_frame_empty _ _ _ _ _ H2) as Hempty.
  destruct (s2 (NInt 80) L2A kw st1) as [r st2]. cbn [fst] in H2. subst r.
  rewrite Hempty. destruct rows; reflexivity.
Qed.

(** X16. The library calls of a sensor-specific query are those of its
    one query, however many scenes come back: [sentinel2] and
    [sentinel1_rtc] each open the catalog at most once, search at most once
    and fetch the items at most once. *)
Theorem sensor_queries_search_once thr lvl kw st :
  (exists new,
     trace (s2 thr lvl kw st).2 = trace st ++ new /\
     (length (opened new) <= 1)%nat /\
     (length (searches new) <= 1)%nat /\
     (length (fetches new) <= 1)%nat) /\
  (exists new,
     trace (s1 kw st).2 = trace st ++ new /\
     (length (opened new) <= 1)%nat /\
     (length (searches new) <= 1)%nat /\
     (length (fetches new) <= 1)%nat).
Proof.
  assert (Hq : forall c,
    exists new,
      trace (query (date_start kw) (date_end kw) c (bounding_box kw) st).2 = trace st ++ new /\
      (length (opened new) <= 1)%nat /\
      (length (searches new) <= 1)%nat /\
      (length (fetches new) <= 1)%nat).
  { intros c. rewrite query_stac_run. cbv zeta.
    destruct (Client_open url) as [e|]; cbn [snd trace];
      [eexists; split; [reflexivity|]; cbn; lia|].
    destruct (Client_search _) as [e|]; cbn [snd trace];
      [eexists; split; [reflexivity|]; cbn; lia|].
    destruct (get_all_items _) as [items|e]; cbn [snd trace];
      eexists; (split; [reflexivity|]); cbn; lia. }
  split.
  - rewrite sentinel2_run. cbv zeta.
    destruct (Hq (level_collection Settings lvl)) as (new & Htr & Hlen).
    exists new. split; [|exact Hlen]. rewrite <- Htr.
    destruct (query _ _ _ _ st) as [[scenes|e] st']; reflexivity.
  - destruct (USE_STAC Settings) eqn:Huse; cycle 1.
    { exists []. unfold sentinel1_rtc. rewrite Huse. cbn. rewrite app_nil_r.
      split; [reflexivity | lia]. }
    destruct (decide (provider (STAC_BACKEND Settings) = MSPC)) as [Hp|Hp]; cycle 1.
    { exists []. unfold sentinel1_rtc. rewrite Huse, (bool_decide_eq_false_2 _ Hp). cbn.
      rewrite app_nil_r. split; [reflexivity | lia]. }
    destruct (String.eqb (PC_SDK_SUBSCRIPTION_KEY Settings) "") eqn:Hkey.
    { exists []. unfold sentinel1_rtc. rewrite Huse, (bool_decide_eq_true_2 _ Hp), Hkey. cbn.
      rewrite app_nil_r. split; [reflexivity | lia]. }
    rewrite sentinel1_rtc_trace; [apply Hq|].
    intros [H|[H|H]]; [congruence | contradiction |].
    rewrite H in Hkey. discriminate.
Qed.

End FurtherProperties.

(** ** Texts *)

(** X17. The text taken for the sensing date, [s.split("T")[0]], is the
    part of [s] before its first ['T']: it holds no ['T'], and [s] is that
    text followed either by nothing or by a ['T'] and the rest. *)
Theorem split_T_head_spec s :
  (forall c, In c (list_ascii_of_string (split_T_head s)) -> c <> "T"%char) /\
  exists rest,
    s = split_T_head s +:+ rest /\
    (rest = "" \/ exists r, rest = String "T" r).
Proof.
  induction s as [|c s [IHno (rest & IHeq & IHrest)]]; cbn.
  - split; [intros c []|]. exists "". split; [reflexivity | left; reflexivity].
  - destruct (Ascii.eqb_spec c "T") as [->|Hc]; cbn.
    + split; [intros c []|]. exists (String "T" s). split; [reflexivity|].
      right. eexists. reflexivity.
    + split.
      * intros c' [<-|Hin]; [exact Hc | apply IHno, Hin].
      * exists rest. split; [|exact IHrest].
        change (String c s = String c (split_T_head s +:+ rest)). f_equal. exact IHeq.
Qed.

Lemma string_length_app s1 s2 :
  String.length (s1 +:+ s2) = (String.length s1 + String.length s2)%nat.
Proof.
  induction s1 as [|c s1 IH]; [reflexivity|].
  change (S (String.length (s1 +:+ s2)) = S (String.length s1 + String.length s2)).
  rewrite IH. reflexivity.
Qed.

Lemma zero_pad_year y : 1000 <= y <= 9999 -> String.length (zero_pad 4 y) = 4%nat.
Proof.
  intros Hy.
  assert (Hall : forallb (fun y => Nat.eqb (String.length (zero_pad 4 y)) 4)
                   (seqZ 1000 9000) = true) by (vm_compute; reflexivity).
  rewrite forallb_forall in Hall. apply Nat.eqb_eq, Hall.
  apply list_elem_of_In, elem_of_seqZ. lia.
Qed.

Lemma zero_pad_two n : 1 <= n <= 31 -> String.length (zero_pad 2 n) = 2%nat.
Proof.
  intros Hn.
  assert (Hall : forallb (fun n => Nat.eqb (String.length (zero_pad 2 n)) 2)
                   (seqZ 1 31) = true) by (vm_compute; reflexivity).
  rewrite forallb_forall in Hall. apply Nat.eqb_eq, Hall.
  apply list_elem_of_In, elem_of_seqZ. lia.
Qed.

Lemma strftime_Ymd_length d : date_in_range d -> String.length (strftime_Ymd d) = 10%nat.
Proof.
  intros (Hy & Hm & Hd). unfold strftime_Ymd. rewrite !string_length_app.
  rewrite (zero_pad_year _ Hy), (zero_pad_two (month d)), (zero_pad_two (day d)) by lia.
  reflexivity.
Qed.

(** X18. For dates whose year has four digits, the date range of every
    search [query_stac] sends has 21 characters, the slash in the middle:
    the ten characters of the start date, a slash, the ten of the end date. *)
Theorem query_stac_date_range Client_open Client_search get_all_items Settings
    date_start date_end collection bounding_box st :
  date_in_range date_start ->
  date_in_range date_end ->
  exists new,
    trace (query_stac Client_open Client_search get_all_items Settings date_start date_end
             collection bounding_box st).2 = trace st ++ new /\
    Forall (fun p =>
              String.length (datetime p) = 21%nat /\
              String.get 10 (datetime p) = Some "/"%char /\
              substring 0 10 (datetime p) = strftime_Ymd date_start /\
              substring 11 10 (datetime p) = strftime_Ymd date_end)
           (searches new).
Proof.
  intros Hs He.
  pose proof (strftime_Ymd_length _ Hs) as Ls. pose proof (strftime_Ymd_length _ He) as Le.
  assert (Hp : let t := datetime (stac_search Settings date_start date_end collection
                                    bounding_box) in
               String.length t = 21%nat /\ String.get 10 t = Some "/"%char /\
               substring 0 10 t = strftime_Ymd date_start /\
               substring 11 10 t = strftime_Ymd date_end).
  { cbn [datetime stac_search]. generalize dependent (strftime_Ymd date_end).
    generalize dependent (strftime_Ymd date_start). clear.
    intros a La b Lb.
    do 11 (destruct a as [|? a]; try discriminate La).
    do 11 (destruct b as [|? b]; try discriminate Lb).
    repeat split. }
  rewrite query_stac_run. cbv zeta.
  destruct (Client_open _) as [e|]; cbn [snd trace].
  { eexists. split; [reflexivity|]. constructor. }
  destruct (Client_search _) as [e|]; cbn [snd trace].
  { eexists. split; [reflexivity|]. cbn. constructor; [exact Hp | constructor]. }
  destruct (get_all_items _) as [items|e]; cbn [snd trace];
    (eexists; split; [reflexivity|]; cbn; constructor; [exact Hp | constructor]).
Qed.

(** ** The further properties on the example catalog *)

Lemma query_stac_value_is_features_witness :
  exists items,
    library_answers Example.Client_open Example.Client_search Example.get_all_items
      (URL (STAC_BACKEND Example.settings_MSPC))
      (stac_search Example.settings_MSPC (Date 2022 5 1) (Date 2022 5 31) "sentinel-2-l2a"
         Example.bbox) items /\
    dict_get "features" (ic_dict items) = Some Example.features.
Proof.
  apply (query_stac_value_is_features Example.Client_open Example.Client_search
           Example.get_all_items Example.settings_MSPC (Date 2022 5 1) (Date 2022 5 31)
           "sentinel-2-l2a" Example.bbox Example.start Example.features).
  reflexivity.
Defined.

Lemma query_stac_stops_at_failure_witness :
  let out := query_stac Example.Client_open_refused Example.Client_search
               Example.get_all_items Example.settings_MSPC (Date 2022 5 1)
               (Date 2022 5 31) "sentinel-2-l2a" Example.bbox Example.start in
  out.1 = Raise (Exn (OtherError "APIError") "connection refused") /\
  exists new,
    trace out.2 = trace Example.start ++ new /\
    fetches new = [] /\
    (Example.Client_open_refused (URL (STAC_BACKEND Example.settings_MSPC))
       = Some (Exn (OtherError "APIError") "connection refused") ->
     new = [EvOpen (URL (STAC_BACKEND Example.settings_MSPC))]) /\
    (Example.Client_open_refused (URL (STAC_BACKEND Example.settings_MSPC)) = None ->
     new = [EvOpen (URL (STAC_BACKEND Example.settings_MSPC));
            EvSearch (stac_search Example.settings_MSPC (Date 2022 5 1) (Date 2022 5 31)
                        "sentinel-2-l2a" Example.bbox)]).
Proof.
  apply (query_stac_stops_at_failure Example.Client_open_refused Example.Client_search
           Example.get_all_items Example.settings_MSPC (Date 2022 5 1) (Date 2022 5 31)
           "sentinel-2-l2a" Example.bbox Example.start).
  left. reflexivity.
Defined.

Lemma query_stac_missing_features_witness :
  let out := query_stac Example.Client_open Example.Client_search
               Example.get_all_items_bare Example.settings_MSPC (Date 2022 5 1)
               (Date 2022 5 31) "sentinel-2-l2a" Example.bbox Example.start in
  out.1 = Raise (Exn KeyError "features") /\
  trace out.2
    = trace Example.start ++
      [EvOpen (URL (STAC_BACKEND Example.settings_MSPC));
       EvSearch (stac_search Example.settings_MSPC (Date 2022 5 1) (Date 2022 5 31)
                   "sentinel-2-l2a" Example.bbox);
       EvGetAllItems (stac_search Example.settings_MSPC (Date 2022 5 1) (Date 2022 5 31)
                        "sentinel-2-l2a" Example.bbox)] /\
  store out.2 = ic_store Example.items_bare ∪ store Example.start.
Proof.
  apply (query_stac_missing_features Example.Client_open Example.Client_search
           Example.get_all_items_bare Example.settings_MSPC (Date 2022 5 1)
           (Date 2022 5 31) "sentinel-2-l2a" Example.bbox Example.start Example.items_bare).
  - repeat split.
  - reflexivity.
Defined.

(** Thresholds 50 and 80: one row, then two, the first of them that row. *)
Lemma sentinel2_threshold_monotone_witness :
  exists rows1 rows2,
    (sentinel2 Example.builtin_str Example.strptime Example.Client_open
       Example.Client_search Example.get_all_items Example.settings_MSPC (NInt 50) L2A
       Example.kw Example.start).1 = Ok rows1 /\
    (sentinel2 Example.builtin_str Example.strptime Example.Client_open
       Example.Client_search Example.get_all_items Example.settings_MSPC (NInt 80) L2A
       Example.kw Example.start).1 = Ok rows2 /\
    rows1 `sublist_of` rows2.
Proof.
  apply (sentinel2_threshold_monotone Example.builtin_str Example.strptime
           Example.Client_open Example.Client_search Example.get_all_items
           Example.settings_MSPC (NInt 50) (NInt 80) L2A Example.kw Example.start
           Example.items Example.features
           [VRef 1%positive; VRef 4%positive; VRef 7%positive] Example.infos).
  - repeat split.
  - reflexivity.
  - reflexivity.
  - repeat constructor; cbn [fst snd]; try (vm_compute; reflexivity);
      eexists; split; vm_compute; reflexivity.
  - reflexivity.
Defined.

(** The second scene has no properties: the query fails, the first scene
    notwithstanding. *)
Lemma sentinel2_fails_on_bad_scene_witness :
  (sentinel2 Example.builtin_str Example.strptime Example.Client_open
     Example.Client_search Example.get_all_items_broken Example.settings_MSPC (NInt 80) L2A
     Example.kw Example.start).1 = Raise (Exn KeyError "properties").
Proof.
  apply (sentinel2_fails_on_bad_scene Example.builtin_str Example.strptime
           Example.Client_open Example.Client_search Example.get_all_items_broken
           Example.settings_MSPC (NInt 80) L2A Example.kw Example.start
           Example.items_broken Example.features
           [VRef 1%positive] (VRef 4%positive) [VRef 7%positive]
           [(NFloat (FFin (25 # 2)), Example.record (VRef 1%positive))]).
  - repeat split.
  - reflexivity.
  - reflexivity.
  - repeat constructor; cbn [fst snd]; try (vm_compute; reflexivity);
      eexists; split; vm_compute; reflexivity.
  - vm_compute. reflexivity.
Defined.

(** The second scene has [None] as cloud cover: a [TypeError]. *)
Lemma sentinel2_fails_on_non_numeric_cloud_cover_witness :
  exists msg,
    (sentinel2 Example.builtin_str Example.strptime Example.Client_open
       Example.Client_search Example.get_all_items_null Example.settings_MSPC (NInt 80) L2A
       Example.kw Example.start).1 = Raise (Exn TypeError msg).
Proof.
  apply (sentinel2_fails_on_non_numeric_cloud_cover Example.builtin_str Example.strptime
           Example.Client_open Example.Client_search Example.get_all_items_null
           Example.settings_MSPC (NInt 80) L2A Example.kw Example.start
           Example.items_null Example.features
           [VRef 1%positive] (VRef 4%positive) [VRef 7%positive]
           [(NFloat (FFin (25 # 2)), Example.record (VRef 1%positive))]
           (dict_set "cloudy_pixel_percentage" VNone (Example.record (VRef 4%positive)))
           VNone).
  - repeat split.
  - reflexivity.
  - reflexivity.
  - repeat constructor; cbn [fst snd]; try (vm_compute; reflexivity);
      eexists; split; vm_compute; reflexivity.
  - vm_compute. reflexivity.
  - vm_compute. reflexivity.
  - reflexivity.
Defined.

(** A threshold that is not a number: no row. *)
Lemma sentinel2_nan_keeps_nothing_witness :
  (sentinel2 Example.builtin_str Example.strptime Example.Client_open
     Example.Client_search Example.get_all_items Example.settings_MSPC (NFloat FNan) L2A
     Example.kw Example.start).1 = Ok [].
Proof.
  apply (sentinel2_nan_keeps_nothing Example.builtin_str Example.strptime
           Example.Client_open Example.Client_search Example.get_all_items
           Example.settings_MSPC (NFloat FNan) L2A Example.kw Example.start
           Example.items Example.features
           [VRef 1%positive; VRef 4%positive; VRef 7%positive] Example.infos).
  - repeat split.
  - reflexivity.
  - reflexivity.
  - repeat constructor; cbn [fst snd]; try (vm_compute; reflexivity);
      eexists; split; vm_compute; reflexivity.
  - left. reflexivity.
Defined.

(** The first row of the example: [product_uri] is the [id] of the scene
    itself, [scene_id] the granule of its properties. *)
Lemma sentinel2_identifier_precedence_witness :
  let run := sentinel2 Example.builtin_str Example.strptime Example.Client_open
               Example.Client_search Example.get_all_items Example.settings_MSPC
               (NInt 80) L2A Example.kw Example.start in
  let h := store run.2 in
  let names := Sentinel2 (STAC_BACKEND Example.settings_MSPC) in
  let row := Example.record (VRef 1%positive) in
  exists scene props,
    scene_meta_dict Example.builtin_str Example.strptime Example.settings_MSPC h scene
      = Ok row /\
    getitem h scene "properties" = Ok props /\
    (forall u, getitem h scene (product_uri names) = Ok u ->
       dict_get "product_uri" row = Some u) /\
    (forall k, getitem h scene (product_uri names) = Raise (Exn KeyError k) ->
       getitem h props (product_uri names) = dict_getitem row "product_uri") /\
    (forall i, getitem h props (scene_id names) = Ok i ->
       dict_get "scene_id" row = Some i) /\
    (forall k, getitem h props (scene_id names) = Raise (Exn KeyError k) ->
       getitem h scene (scene_id names) = dict_getitem row "scene_id").
Proof.
  apply (sentinel2_identifier_precedence Example.builtin_str Example.strptime
           Example.Client_open Example.Client_search Example.get_all_items
           Example.settings_MSPC (NInt 80) L2A Example.kw Example.start
           [Example.record (VRef 1%positive); Example.record (VRef 4%positive)]
           (Example.record (VRef 1%positive))).
  - vm_compute. reflexivity.
  - left.
Defined.

Lemma sentinel2_record_values_witness :
  let run := sentinel2 Example.builtin_str Example.strptime Example.Client_open
               Example.Client_search Example.get_all_items Example.settings_MSPC
               (NInt 80) L2A Example.kw Example.start in
  let h := store run.2 in
  let names := Sentinel2 (STAC_BACKEND Example.settings_MSPC) in
  let row := Example.record (VRef 1%positive) in
  exists scene props text time,
    getitem h scene "properties" = Ok props /\
    dict_getitem row "spacecraft_name" = getitem h props (platform names) /\
    dict_getitem row "cloudy_pixel_percentage" = getitem h props (cloud_cover names) /\
    dict_getitem row "epsg" = getitem h props (epsg names) /\
    dict_getitem row "sun_azimuth_angle" = getitem h props (sun_azimuth_angle names) /\
    dict_getitem row "sun_zenith_angle" = getitem h props (sun_zenith_angle names) /\
    (forall key, tile_id names = TileName key ->
       dict_getitem row "tile_id" = getitem h props key) /\
    getitem h props (sensing_time names) = Ok (VStr text) /\
    Example.strptime text (sensing_time_fmt names) = Ok time /\
    dict_get "sensing_time" row = Some (VDatetime time) /\
    dict_getitem row "assets" = getitem h scene "assets".
Proof.
  apply (sentinel2_record_values Example.builtin_str Example.strptime
           Example.Client_open Example.Client_search Example.get_all_items
           Example.settings_MSPC (NInt 80) L2A Example.kw Example.start
           [Example.record (VRef 1%positive); Example.record (VRef 4%positive)]
           (Example.record (VRef 1%positive))).
  - vm_compute. reflexivity.
  - left.
Defined.

(** After the call, the properties of the three scenes hold their assets. *)
Lemma sentinel1_rtc_updates_properties_witness :
  let h' := store (sentinel1_rtc Example.Client_open Example.Client_search
                     Example.get_all_items Example.settings_MSPC Example.kw
                     Example.start).2 in
  Forall (fun v =>
            h' !! sv_properties v
              = Some (dict_set "assets" (sv_assets v) (sv_props v)) /\
            getitem h' (VRef (sv_properties v)) "assets" = Ok (sv_assets v))
         Example.views /\
  forall l, l ∉ (sv_properties <$> Example.views) ->
    h' !! l = (ic_store Example.items ∪ store Example.start) !! l.
Proof.
  apply (sentinel1_rtc_updates_properties Example.Client_open Example.Client_search
           Example.get_all_items Example.settings_MSPC Example.kw Example.start
           Example.items Example.features
           [VRef 1%positive; VRef 4%positive; VRef 7%positive] Example.views).
  - intros [H|[H|H]]; [discriminate H | apply H; reflexivity | discriminate H].
  - repeat split.
  - reflexivity.
  - reflexivity.
  - repeat constructor.
  - split.
    + apply (bool_decide_unpack _). vm_compute. exact I.
    + apply (bool_decide_unpack _). vm_compute. exact I.
Defined.

(** The second scene has no properties: the call fails, and the properties
    of the first scene hold its assets all the same. *)
Lemma sentinel1_rtc_no_rollback_witness :
  let run := sentinel1_rtc Example.Client_open Example.Client_search
               Example.get_all_items_broken Example.settings_MSPC Example.kw
               Example.start in
  run.1 = Raise (Exn KeyError "properties") /\
  Forall (fun v =>
            store run.2 !! sv_properties v
              = Some (dict_set "assets" (sv_assets v) (sv_props v)))
         (take 1 Example.views).
Proof.
  apply (sentinel1_rtc_no_rollback Example.Client_open Example.Client_search
           Example.get_all_items_broken Example.settings_MSPC Example.kw Example.start
           Example.items_broken Example.features
           [VRef 1%positive] (VRef 4%positive) [VRef 7%positive] (take 1 Example.views)).
  - intros [H|[H|H]]; [discriminate H | apply H; reflexivity | discriminate H].
  - repeat split.
  - reflexivity.
  - reflexivity.
  - repeat constructor.
  - split.
    + apply (bool_decide_unpack _). vm_compute. exact I.
    + apply (bool_decide_unpack _). vm_compute. exact I.
  - reflexivity.
  - intros l [= <-]. apply (bool_decide_unpack _). vm_compute. exact I.
Defined.


(** On the example catalog two scenes are found, and the script fails. *)
Lemma script_asserts_empty_frame_witness :
  (main Example.builtin_str Example.strptime Example.Client_open Example.Client_search
     Example.get_all_items Example.settings_MSPC Example.bbox Example.start).1
  = Raise (Exn (OtherError "AssertionError") "no results found").
Proof.
  apply (script_asserts_empty_frame Example.builtin_str Example.strptime
           Example.Client_open Example.Client_search Example.get_all_items
           Example.settings_MSPC Example.bbox Example.start
           (view_row <$> Example.views)
           (sentinel1_rtc Example.Client_open Example.Client_search Example.get_all_items
              Example.settings_MSPC Example.kw Example.start).2
           [Example.record (VRef 1%positive); Example.record (VRef 4%positive)]).
  - vm_compute. reflexivity.
  - vm_compute. reflexivity.
Defined.

Lemma query_stac_date_range_witness :
  exists new,
    trace (query_stac Example.Client_open Example.Client_search Example.get_all_items
             Example.settings_MSPC (Date 2022 5 1) (Date 2022 5 31) "sentinel-2-l2a"
             Example.bbox Example.start).2 = trace Example.start ++ new /\
    Forall (fun p =>
              String.length (datetime p) = 21%nat /\
              String.get 10 (datetime p) = Some "/"%char /\
              substring 0 10 (datetime p) = strftime_Ymd (Date 2022 5 1) /\
              substring 11 10 (datetime p) = strftime_Ymd (Date 2022 5 31))
           (searches new).
Proof.
  apply (query_stac_date_range Example.Client_open Example.Client_search
           Example.get_all_items Example.settings_MSPC (Date 2022 5 1) (Date 2022 5 31)
           "sentinel-2-l2a" Example.bbox Example.start).
  - unfold date_in_range. cbn. lia.
  - unfold date_in_range. cbn. lia.
Defined.
